(** * ElectricWaterHeater: the CTA-2045 water-heater controller of the DCS

    A shallow embedding of [src/build/src/ElectricWaterHeater.cpp].

    The controller object is a record; every method is a computation in a
    small monad that threads the object, collects what the method sends to
    the outside (device commands, log lines, terminal output) and can stop
    early ([exit], a thrown exception, undefined behaviour).  What a method
    reads from the outside (the clock, the UCM call-back object, the current
    transducer) is passed in as a [World] value. *)

From Stdlib Require Import ZArith List String Ascii Bool Lia.
From stdpp Require Import base strings gmap.
Import ListNotations.

Open Scope string_scope.
Open Scope Z_scope.
Open Scope list_scope.

(** ** Data *)

(** Modelled from the spec: the base class [DistributedEnergyResource] (the
    "Property Store"), whose header and implementation are not in the source
    tree.  The specification describes it as a property bag with one getter
    and one setter per field, synchronous and without any effect beyond the
    store itself.  The fields are those the water heater's methods touch;
    their declared C++ types live in the absent header, so the values are
    kept as integers on which the methods perform no arithmetic (only
    assignment and comparison against zero). *)
Record DistributedEnergyResource : Type := mkDER {
  export_watts_ : Z;
  export_power_ : Z;
  export_energy_ : Z;
  import_watts_ : Z;
  import_power_ : Z;
  import_energy_ : Z;
  rated_import_power_ : Z;
  rated_import_energy_ : Z;
  import_ramp_ : Z;
  idle_losses_ : Z;
  log_path_ : string;
  log_inc_ : Z
}.

(** One element of [ucm_.GetCommodityData ()]. *)
Record CommodityData : Type := mkCommodity {
  code : Z;
  rate : Z;
  cumulative : Z
}.

(** The UCM call-back object [ucm_]: the device thread fills it with the
    latest commodity readings and the latest reported operational state; the
    controller only reads it.  A value of this type is the content of
    [ucm_] during one method call. *)
Record UCM : Type := mkUCM {
  GetCommodityData : list CommodityData;
  GetOpState : Z
}.

(** What one method call observes of the outside. *)
Record World : Type := mkWorld {
  tm_sec : Z;                 (* localtime(&now)->tm_sec *)
  tm_min : Z;                 (* localtime(&now)->tm_min *)
  time0 : Z;                  (* time(0) *)
  ucm_ : UCM;
  real_import_power : Z;      (* GetRealImportPower (): transducer current * 240 *)
  response : Z;               (* response code a completed query yields *)
  strerror_errno : string
}.

(** The controller object: the base-class part and the members the methods
    of the file read or write. *)
Record EWH : Type := mkEWH {
  der : DistributedEnergyResource;
  sp_ : string;
  current_transducer_1_ : Z;
  heartbeat_ : Z;
  response_codes_ : Z;
  opstate_ : Z;
  log_minute_ : Z;
  last_utc_ : Z
}.

(** Calls on [device_ptr_]. *)
Inductive Command : Type :=
| start
| basicOutsideCommConnectionStatus_Found
| querySuportDataLinkMessages
| queryMaxPayload
| querySuportIntermediateMessages
| intermediateGetDeviceInformation
| intermediateGetCommodity
| basicQueryOperationalState
| basicCriticalPeakEvent (duration : Z)
| basicLoadUp (duration : Z)
| basicGridEmergency (duration : Z)
| basicEndShed (duration : Z)
| basicShed (duration : Z).

(** Everything a method sends outwards, in program order. *)
Inductive Event : Type :=
| Cmd (c : Command)                               (* command handed to the device *)
| Got (c : Command)                               (* [.get ()] on its future returned *)
| Logged (level path msg : string)                (* Logger (level, path) << msg *)
| Telemetry (path : string) (fields : list Z)     (* Logger ("DER_Data", path) << ... *)
| Stdout (msg : string).                          (* std::cout << msg *)

(** Ways a method stops without returning. *)
Inductive Abort : Type :=
| Exit (status : Z)
| Throw (what : string)
| Undefined (what : string).

(** ** The monad *)

Definition M (A : Type) : Type := EWH -> list Event * (Abort + A * EWH).

Definition ret {A} (a : A) : M A := fun s => ([], inr (a, s)).

Definition bind {A B} (m : M A) (k : A -> M B) : M B :=
  fun s =>
    match m s with
    | (out, inl e) => (out, inl e)
    | (out, inr (a, s1)) =>
        match k a s1 with
        | (out', r) => (out ++ out', r)
        end
    end.

Declare Scope ewh_scope.
Delimit Scope ewh_scope with ewh.
Notation "x <- m ;; k" := (bind m (fun x => k))
  (at level 100, m at next level, k at level 200, right associativity) : ewh_scope.
Notation "m ;; k" := (bind m (fun _ => k))
  (at level 100, k at level 200, right associativity) : ewh_scope.
Open Scope ewh_scope.

Definition gets {A} (f : EWH -> A) : M A := fun s => ([], inr (f s, s)).
Definition modify (f : EWH -> EWH) : M unit := fun s => ([], inr (tt, f s)).
Definition emit (e : Event) : M unit := fun s => ([e], inr (tt, s)).
Definition abort {A} (e : Abort) : M A := fun _ => ([], inl e).
Definition when (b : bool) (m : M unit) : M unit := if b then m else ret tt.

(** [for (const auto &x : xs) body] *)
Fixpoint for_each {A} (xs : list A) (body : A -> M unit) : M unit :=
  match xs with
  | [] => ret tt
  | x :: xs' => body x ;; for_each xs' body
  end.

(** The device commands among the events of a run. *)
Fixpoint commands (out : list Event) : list Command :=
  match out with
  | [] => []
  | Cmd c :: out' => c :: commands out'
  | _ :: out' => commands out'
  end.

(** The telemetry records among the events of a run. *)
Fixpoint telemetry (out : list Event) : list (list Z) :=
  match out with
  | [] => []
  | Telemetry _ fields :: out' => fields :: telemetry out'
  | _ :: out' => telemetry out'
  end.

(** Conversion to [unsigned int] (32 bits). *)
Definition to_uint (z : Z) : Z := z mod 2 ^ 32.

(** ** The property store's accessors *)

(** Applies a change of the base-class part to the object. *)
Definition with_der (f : DistributedEnergyResource -> DistributedEnergyResource)
  (s : EWH) : EWH :=
  mkEWH (f (der s)) (sp_ s) (current_transducer_1_ s) (heartbeat_ s)
        (response_codes_ s) (opstate_ s) (log_minute_ s) (last_utc_ s).

(** Modelled from the spec: the setters and getters of
    [DistributedEnergyResource], which are not in the source tree.  Each
    setter assigns its one field and each getter reads it, as the
    specification's property-store interface has it. *)
Definition set_export_energy (v : Z) (d : DistributedEnergyResource) :=
  mkDER (export_watts_ d) (export_power_ d) v (import_watts_ d) (import_power_ d)
        (import_energy_ d) (rated_import_power_ d) (rated_import_energy_ d)
        (import_ramp_ d) (idle_losses_ d) (log_path_ d) (log_inc_ d).

Definition set_import_power (v : Z) (d : DistributedEnergyResource) :=
  mkDER (export_watts_ d) (export_power_ d) (export_energy_ d) (import_watts_ d) v
        (import_energy_ d) (rated_import_power_ d) (rated_import_energy_ d)
        (import_ramp_ d) (idle_losses_ d) (log_path_ d) (log_inc_ d).

Definition set_import_energy (v : Z) (d : DistributedEnergyResource) :=
  mkDER (export_watts_ d) (export_power_ d) (export_energy_ d) (import_watts_ d)
        (import_power_ d) v (rated_import_power_ d) (rated_import_energy_ d)
        (import_ramp_ d) (idle_losses_ d) (log_path_ d) (log_inc_ d).

Definition set_rated_import_power (v : Z) (d : DistributedEnergyResource) :=
  mkDER (export_watts_ d) (export_power_ d) (export_energy_ d) (import_watts_ d)
        (import_power_ d) (import_energy_ d) v (rated_import_energy_ d)
        (import_ramp_ d) (idle_losses_ d) (log_path_ d) (log_inc_ d).

Definition set_rated_import_energy (v : Z) (d : DistributedEnergyResource) :=
  mkDER (export_watts_ d) (export_power_ d) (export_energy_ d) (import_watts_ d)
        (import_power_ d) (import_energy_ d) (rated_import_power_ d) v
        (import_ramp_ d) (idle_losses_ d) (log_path_ d) (log_inc_ d).

Definition set_import_ramp (v : Z) (d : DistributedEnergyResource) :=
  mkDER (export_watts_ d) (export_power_ d) (export_energy_ d) (import_watts_ d)
        (import_power_ d) (import_energy_ d) (rated_import_power_ d)
        (rated_import_energy_ d) v (idle_losses_ d) (log_path_ d) (log_inc_ d).

Definition set_idle_losses (v : Z) (d : DistributedEnergyResource) :=
  mkDER (export_watts_ d) (export_power_ d) (export_energy_ d) (import_watts_ d)
        (import_power_ d) (import_energy_ d) (rated_import_power_ d)
        (rated_import_energy_ d) (import_ramp_ d) v (log_path_ d) (log_inc_ d).

Definition set_log_path (p : string) (d : DistributedEnergyResource) :=
  mkDER (export_watts_ d) (export_power_ d) (export_energy_ d) (import_watts_ d)
        (import_power_ d) (import_energy_ d) (rated_import_power_ d)
        (rated_import_energy_ d) (import_ramp_ d) (idle_losses_ d) p (log_inc_ d).

Definition set_log_inc (v : Z) (d : DistributedEnergyResource) :=
  mkDER (export_watts_ d) (export_power_ d) (export_energy_ d) (import_watts_ d)
        (import_power_ d) (import_energy_ d) (rated_import_power_ d)
        (rated_import_energy_ d) (import_ramp_ d) (idle_losses_ d) (log_path_ d) v.

Definition SetExportEnergy (v : Z) : M unit := modify (with_der (set_export_energy v)).
Definition SetImportPower (v : Z) : M unit := modify (with_der (set_import_power v)).
Definition SetImportEnergy (v : Z) : M unit := modify (with_der (set_import_energy v)).
Definition SetRatedImportPower (v : Z) : M unit :=
  modify (with_der (set_rated_import_power v)).
Definition SetRatedImportEnergy (v : Z) : M unit :=
  modify (with_der (set_rated_import_energy v)).
Definition SetImportRamp (v : Z) : M unit := modify (with_der (set_import_ramp v)).
Definition SetIdleLosses (v : Z) : M unit := modify (with_der (set_idle_losses v)).
Definition SetLogPath (p : string) : M unit := modify (with_der (set_log_path p)).
Definition SetLogIncrement (v : Z) : M unit := modify (with_der (set_log_inc v)).

Definition GetExportWatts : M Z := gets (fun s => export_watts_ (der s)).
Definition GetExportPower : M Z := gets (fun s => export_power_ (der s)).
Definition GetExportEnergy : M Z := gets (fun s => export_energy_ (der s)).
Definition GetImportWatts : M Z := gets (fun s => import_watts_ (der s)).
Definition GetImportPower : M Z := gets (fun s => import_power_ (der s)).
Definition GetImportEnergy : M Z := gets (fun s => import_energy_ (der s)).
Definition GetRatedImportEnergy : M Z := gets (fun s => rated_import_energy_ (der s)).
Definition GetLogPath : M string := gets (fun s => log_path_ (der s)).

(** The two signals of the specification's power arbitration, by the
    accessor the arbitration of [Loop] reads each with: the first branch
    tests [GetImportWatts () > 0] for "import_setpoint_watts > 0" and
    [GetImportPower () == 0] for "import_commanded_watts == 0". *)
Definition import_setpoint_watts (s : EWH) : Z := import_watts_ (der s).
Definition import_commanded_watts (s : EWH) : Z := import_power_ (der s).

(** ** Assignments to the controller's own members *)

Definition set_sp (v : string) (s : EWH) : EWH :=
  mkEWH (der s) v (current_transducer_1_ s) (heartbeat_ s)
        (response_codes_ s) (opstate_ s) (log_minute_ s) (last_utc_ s).
Definition set_current_transducer_1 (v : Z) (s : EWH) : EWH :=
  mkEWH (der s) (sp_ s) v (heartbeat_ s)
        (response_codes_ s) (opstate_ s) (log_minute_ s) (last_utc_ s).
Definition set_heartbeat (v : Z) (s : EWH) : EWH :=
  mkEWH (der s) (sp_ s) (current_transducer_1_ s) v
        (response_codes_ s) (opstate_ s) (log_minute_ s) (last_utc_ s).
Definition set_response_codes (v : Z) (s : EWH) : EWH :=
  mkEWH (der s) (sp_ s) (current_transducer_1_ s) (heartbeat_ s)
        v (opstate_ s) (log_minute_ s) (last_utc_ s).
Definition set_opstate (v : Z) (s : EWH) : EWH :=
  mkEWH (der s) (sp_ s) (current_transducer_1_ s) (heartbeat_ s)
        (response_codes_ s) v (log_minute_ s) (last_utc_ s).
Definition set_log_minute (v : Z) (s : EWH) : EWH :=
  mkEWH (der s) (sp_ s) (current_transducer_1_ s) (heartbeat_ s)
        (response_codes_ s) (opstate_ s) v (last_utc_ s).
Definition set_last_utc (v : Z) (s : EWH) : EWH :=
  mkEWH (der s) (sp_ s) (current_transducer_1_ s) (heartbeat_ s)
        (response_codes_ s) (opstate_ s) (log_minute_ s) v.

(** ** Talking to the outside *)

(** A fire-and-forget call on [device_ptr_]: the returned future is dropped. *)
Definition device (c : Command) : M unit := emit (Cmd c).

(** [response_codes_ = device_ptr_->c ().get ()]: the call is awaited. *)
Definition device_get (w : World) (c : Command) : M unit :=
  emit (Cmd c) ;; emit (Got c) ;; modify (set_response_codes (response w)).

(** [Logger (level, GetLogPath ()) << msg] *)
Definition Logger (level msg : string) : M unit :=
  path <- GetLogPath ;; emit (Logged level path msg).

(** [configs[k]]: a missing key reads as the empty string. *)
Definition at_key (configs : gmap string string) (k : string) : string :=
  default "" (configs !! k).

(** ** std::stoul at base 10, for running the constructor on sample input *)

Definition is_space (c : ascii) : bool :=
  let n := Z.of_N (N_of_ascii c) in (n =? 32) || ((9 <=? n) && (n <=? 13)).

Definition digit_of (c : ascii) : option Z :=
  let n := Z.of_N (N_of_ascii c) in
  if (48 <=? n) && (n <=? 57) then Some (n - 48) else None.

Fixpoint skip_space (s : string) : string :=
  match s with
  | String c s' => if is_space c then skip_space s' else s
  | EmptyString => s
  end.

(** The longest prefix of decimal digits; [None] when there is none. *)
Fixpoint digits (s : string) (acc : option Z) : option Z :=
  match s with
  | String c s' =>
      match digit_of c with
      | Some d => digits s' (Some (10 * default 0 acc + d))
      | None => acc
      end
  | EmptyString => acc
  end.

Definition ULONG_MAX : Z := 2 ^ 64 - 1.

(** [None] stands for the exception ([invalid_argument] when no digit
    is found, [out_of_range] above [ULONG_MAX]). *)
Definition stoul_dec (str : string) : option Z :=
  let s1 := skip_space str in
  let '(neg, s2) :=
    match s1 with
    | String "-"%char r => (true, r)
    | String "+"%char r => (false, r)
    | _ => (false, s1)
    end in
  match digits s2 None with
  | None => None
  | Some n =>
      if n <=? ULONG_MAX
      then Some (if neg then (2 ^ 64 - n) mod 2 ^ 64 else n)
      else None
  end.

(** ** The methods of ElectricWaterHeater *)

Section ElectricWaterHeater.

(** The operational-state codes [HEIGHTENED], [GRID] and [CURTAILED] that
    [Loop] compares the device-reported state with are declared in a header
    outside the source tree, and [std::stoul] belongs to the C++ standard
    library: the methods are parameterised over them. *)
Variables HEIGHTENED GRID CURTAILED : Z.
Variable stoul : string -> option Z.

(** [stoul (str)], which throws when it cannot convert. *)
Definition stoul_or_throw (str : string) : M Z :=
  match stoul str with
  | Some n => ret n
  | None => abort (Throw "stoul")
  end.

(** Lines 84-100. *)
Definition QueryProperties (w : World) : M unit :=
  device intermediateGetCommodity ;;
  let commodities := GetCommodityData (ucm_ w) in
  for_each commodities (fun commodity =>
    if code commodity =? 0 then
      SetImportPower (rate commodity)
    else if code commodity =? 6 then
      SetRatedImportEnergy (cumulative commodity)
    else if code commodity =? 7 then
      SetImportEnergy (cumulative commodity)
    else ret tt) ;;
  device basicQueryOperationalState.

(** Lines 12-48.  The computation runs on the object as the base-class
    constructor and the default member initialisers leave it; [open_ok] is
    the result of [sp_.open ()]. *)
Definition ElectricWaterHeater (configs : gmap string string) (open_ok : bool)
  (w : World) : M unit :=
  modify (set_sp (at_key configs "serial_port")) ;;
  channel <- stoul_or_throw (at_key configs "mcp_channel") ;;
  modify (set_current_transducer_1 channel) ;;
  hb <- stoul_or_throw (at_key configs "ucm_heartbeat") ;;
  modify (set_heartbeat hb) ;;
  (if negb open_ok then
     Logger "ERROR" (String.append "failed to open serial port: " (strerror_errno w)) ;;
     abort (Exit 1)
   else
     device start ;;
     device basicOutsideCommConnectionStatus_Found) ;;
  device_get w querySuportDataLinkMessages ;;
  device_get w queryMaxPayload ;;
  device_get w querySuportIntermediateMessages ;;
  device_get w intermediateGetDeviceInformation ;;
  SetLogPath (at_key configs "log_path") ;;
  path <- GetLogPath ;;
  emit (Stdout (String.append "Log Path: " path)) ;;
  inc <- stoul_or_throw (at_key configs "log_inc") ;;
  SetLogIncrement inc ;;
  Logger "INFO" "startup complete" ;;
  SetRatedImportPower 4500 ;;
  SetExportEnergy 0 ;;
  ramp <- stoul_or_throw (at_key configs "EWH_rated_import_ramp") ;;
  SetImportRamp ramp ;;
  SetIdleLosses 100 ;;
  QueryProperties w.

(** Lines 55-59. *)
Definition SetCriticalPeak : M unit :=
  device (basicCriticalPeakEvent 0) ;;
  modify (set_opstate 4) ;;
  Logger "INFO" "Critical peak event command received".

(** Lines 62-66. *)
Definition SetLoadUp : M unit :=
  modify (set_opstate 3) ;;
  device (basicLoadUp 0) ;;
  Logger "INFO" "Load up command received".

(** Lines 69-73. *)
Definition SetGridEmergency : M unit :=
  modify (set_opstate 5) ;;
  device (basicGridEmergency 0) ;;
  Logger "INFO" "Grid Emergency command received".

(** Lines 104-107. *)
Definition EndCurtailment : M unit :=
  device (basicEndShed 0) ;;
  emit (Stdout "Debugging: Ending previous curtailment for new command.").

(** Lines 116-119. *)
Definition ImportPower : M unit := device (basicLoadUp 0).

(** Lines 123-126. *)
Definition ExportPower : M unit := SetExportEnergy 0.

(** Lines 132-134. *)
Definition IdleLoss : M unit := device (basicShed 0).

(** Lines 173-186. *)
Definition Log (w : World) : M unit :=
  let utc := to_uint (time0 w) in
  path <- GetLogPath ;;
  export_watts <- GetExportWatts ;;
  export_power <- GetExportPower ;;
  export_energy <- GetExportEnergy ;;
  import_watts <- GetImportWatts ;;
  import_power <- GetImportPower ;;
  import_energy <- GetImportEnergy ;;
  rated_import_energy <- GetRatedImportEnergy ;;
  emit (Telemetry path
          [export_watts; export_power; export_energy; import_watts; import_power;
           import_energy; rated_import_energy; real_import_power w;
           GetOpState (ucm_ w)]) ;;
  modify (set_last_utc utc).

(** Lines 138-156 of [Loop]: the clock and the three periodic actions.
    [min % heartbeat_] is evaluated on every tick, and is undefined when
    [heartbeat_] is zero. *)
Definition Loop_schedule (w : World) : M unit :=
  let sec := to_uint (tm_sec w) in
  let min := to_uint (tm_min w) in
  when (sec mod 2 =? 0) (QueryProperties w) ;;
  hb <- gets heartbeat_ ;;
  (if hb =? 0 then abort (Undefined "min % heartbeat_") else ret tt) ;;
  when ((min mod hb =? 0) && (sec <? 1))
    (device basicOutsideCommConnectionStatus_Found) ;;
  log_minute <- gets log_minute_ ;;
  when ((sec =? 0) && negb (log_minute =? min))
    (Log w ;; modify (set_log_minute min)).

(** Lines 158-168 of [Loop]: the power arbitration. *)
Definition Loop_arbitration (w : World) : M unit :=
  import_watts <- GetImportWatts ;;
  import_power <- GetImportPower ;;
  if (import_watts >? 0) && (import_power =? 0) then
    when (negb (GetOpState (ucm_ w) =? HEIGHTENED)) ImportPower
  else if (import_power >? 0) && (import_watts =? 0) then
    when (negb (GetOpState (ucm_ w) =? GRID) || negb (GetOpState (ucm_ w) =? CURTAILED))
      IdleLoss
  else ret tt.

(** Lines 137-169; the argument [time_past] is not used. *)
Definition Loop (w : World) : M unit :=
  Loop_schedule w ;; Loop_arbitration w.

End ElectricWaterHeater.

(** ** Sample values, for running the model *)

(** The CTA-2045 operational-state codes for "running curtailed",
    "running heightened" and "idle grid", and for "idle normal". *)
Definition sample_NORMAL : Z := 0.
Definition sample_CURTAILED : Z := 2.
Definition sample_HEIGHTENED : Z := 3.
Definition sample_GRID : Z := 4.

Definition sample_config_list : list (string * string) :=
  [("serial_port", "/dev/ttyUSB0"); ("mcp_channel", "1"); ("ucm_heartbeat", "5");
   ("log_path", "/var/log/ewh"); ("log_inc", "60"); ("EWH_rated_import_ramp", "30")].

Definition sample_configs : gmap string string := list_to_map sample_config_list.

(** An object with every member zero or empty. *)
Definition blank : EWH :=
  mkEWH (mkDER 0 0 0 0 0 0 0 0 0 0 "" 0) "" 0 0 0 0 0 0.

(** A controller with heart beat 5, the given two power signals, local
    state [opstate] and last logged minute [log_minute]. *)
Definition sample_ewh (import_watts import_power opstate log_minute : Z) : EWH :=
  mkEWH (mkDER 0 0 0 import_watts import_power 0 4500 0 30 100 "/var/log/ewh" 60)
        "/dev/ttyUSB0" 1 5 0 opstate log_minute 0.

(** The outside at second [sec] of minute [min], with the given UCM content. *)
Definition sample_world (sec min : Z) (readings : list CommodityData) (state : Z)
  : World :=
  mkWorld sec min 1700000000 (mkUCM readings state) 0 0 "".

(** A reading of 500 W under code 0. *)
Definition reading_500 : CommodityData := mkCommodity 0 500 0.

(** Three controllers: the DR layer wants 500 W that the device does not
    draw; both sides agree on 500 W; both sides are at zero.  The local
    state is the one written by SetCriticalPeak, and minute 9 was the last
    one logged. *)
Definition wanting_import : EWH := sample_ewh 500 0 4 9.
Definition agreeing : EWH := sample_ewh 500 500 4 9.
Definition idle : EWH := sample_ewh 0 0 4 9.

(** A second configuration, every value of which differs from the first. *)
Definition other_config_list : list (string * string) :=
  [("serial_port", "/dev/ttyS1"); ("mcp_channel", "2"); ("ucm_heartbeat", "1");
   ("log_path", "/tmp/ewh"); ("log_inc", "10"); ("EWH_rated_import_ramp", "45")].

Definition other_configs : gmap string string := list_to_map other_config_list.

(** ** What a property refresh does to the store *)

(** The body of the [for] loop of [QueryProperties], as a function on the
    store. *)
Definition store_commodity (c : CommodityData) (d : DistributedEnergyResource)
  : DistributedEnergyResource :=
  if code c =? 0 then set_import_power (rate c) d
  else if code c =? 6 then set_rated_import_energy (cumulative c) d
  else if code c =? 7 then set_import_energy (cumulative c) d
  else d.

Fixpoint store_commodities (cs : list CommodityData) (d : DistributedEnergyResource)
  : DistributedEnergyResource :=
  match cs with
  | [] => d
  | c :: cs' => store_commodities cs' (store_commodity c d)
  end.

(** The field [f] of the last reading with code [k], or [old] when no
    reading has that code. *)
Fixpoint latest (k : Z) (f : CommodityData -> Z) (cs : list CommodityData)
  (old : Z) : Z :=
  match cs with
  | [] => old
  | c :: cs' => latest k f cs' (if code c =? k then f c else old)
  end.

(** Every method of the object that the DR manager or the scheduler can
    call once the object is constructed. *)
Inductive Call : Type :=
| CallSetCriticalPeak
| CallSetLoadUp
| CallSetGridEmergency
| CallQueryProperties (w : World)
| CallEndCurtailment
| CallImportPower
| CallExportPower
| CallIdleLoss
| CallLoop (w : World)
| CallLog (w : World).

Definition call (HEIGHTENED GRID CURTAILED : Z) (c : Call) : M unit :=
  match c with
  | CallSetCriticalPeak => SetCriticalPeak
  | CallSetLoadUp => SetLoadUp
  | CallSetGridEmergency => SetGridEmergency
  | CallQueryProperties w => QueryProperties w
  | CallEndCurtailment => EndCurtailment
  | CallImportPower => ImportPower
  | CallExportPower => ExportPower
  | CallIdleLoss => IdleLoss
  | CallLoop w => Loop HEIGHTENED GRID CURTAILED w
  | CallLog w => Log w
  end.

(** The scheduler calling [Loop] once per tick, each tick with what the
    outside looks like at that moment. *)
Definition ticks (HEIGHTENED GRID CURTAILED : Z) (ws : list World) : M unit :=
  for_each ws (Loop HEIGHTENED GRID CURTAILED).

(** The commands the periodic part of [Loop] can send. *)
Definition schedule_command (c : Command) : Prop :=
  c = intermediateGetCommodity \/ c = basicQueryOperationalState \/
  c = basicOutsideCommConnectionStatus_Found.

(** The duration argument of the commands that carry one. *)
Definition duration_of (c : Command) : option Z :=
  match c with
  | basicCriticalPeakEvent d | basicLoadUp d | basicGridEmergency d
  | basicEndShed d | basicShed d => Some d
  | _ => None
  end.

(** Whether the tick at second [tm_sec w] of minute [tm_min w] writes a
    telemetry record, given the minute last logged: the condition of line
    153. *)
Definition log_due (w : World) (s : EWH) : bool :=
  (to_uint (tm_sec w) =? 0) && negb (log_minute_ s =? to_uint (tm_min w)).

(** The object as the constructor leaves it just before its closing
    property refresh, from the four numbers [stoul] yields. *)
Definition initialised (configs : gmap string string) (w : World) (s0 : EWH)
  (channel hb inc ramp : Z) : EWH :=
  mkEWH (mkDER (export_watts_ (der s0)) (export_power_ (der s0)) 0
               (import_watts_ (der s0)) (import_power_ (der s0))
               (import_energy_ (der s0)) 4500 (rated_import_energy_ (der s0))
               ramp 100 (at_key configs "log_path") inc)
        (at_key configs "serial_port") channel hb (response w)
        (opstate_ s0) (log_minute_ s0) (last_utc_ s0).

(** What a successful constructor sends before that refresh: the start of
    the device, the connection status, the four awaited queries of the
    handshake, and the two start-up messages. *)
Definition startup_out (configs : gmap string string) : list Event :=
  [Cmd start; Cmd basicOutsideCommConnectionStatus_Found;
   Cmd querySuportDataLinkMessages; Got querySuportDataLinkMessages;
   Cmd queryMaxPayload; Got queryMaxPayload;
   Cmd querySuportIntermediateMessages; Got querySuportIntermediateMessages;
   Cmd intermediateGetDeviceInformation; Got intermediateGetDeviceInformation;
   Stdout (String.append "Log Path: " (at_key configs "log_path"));
   Logged "INFO" (at_key configs "log_path") "startup complete"].

(** ** Observers used by the further properties *)

(** The outside [w] with other commodity readings in the UCM object. *)
Definition with_readings (cs : list CommodityData) (w : World) : World :=
  mkWorld (tm_sec w) (tm_min w) (time0 w) (mkUCM cs (GetOpState (ucm_ w)))
          (real_import_power w) (response w) (strerror_errno w).

(** The codes [QueryProperties] has a branch for. *)
Definition code_is_read (c : CommodityData) : bool :=
  (code c =? 0) || (code c =? 6) || (code c =? 7).

(** The condition of line 146 for re-announcing the connection status. *)
Definition heartbeat_due (w : World) (s : EWH) : bool :=
  (to_uint (tm_min w) mod heartbeat_ s =? 0) && (to_uint (tm_sec w) <? 1).

(** The store a tick works on after line 145: refreshed on even seconds. *)
Definition refreshed (w : World) (s : EWH) : EWH :=
  if to_uint (tm_sec w) mod 2 =? 0
  then with_der (store_commodities (GetCommodityData (ucm_ w))) s
  else s.

(** The nine fields [Log] writes, in its order. *)
Definition telemetry_record (w : World) (s : EWH) : list Z :=
  [export_watts_ (der s); export_power_ (der s); export_energy_ (der s);
   import_watts_ (der s); import_power_ (der s); import_energy_ (der s);
   rated_import_energy_ (der s); real_import_power w; GetOpState (ucm_ w)].

Definition is_connection_status (c : Command) : bool :=
  match c with basicOutsideCommConnectionStatus_Found => true | _ => false end.

Definition is_load_up (c : Command) : bool :=
  match c with basicLoadUp _ => true | _ => false end.

Definition is_shed (c : Command) : bool :=
  match c with basicShed _ => true | _ => false end.

(** How many of the commands of a run satisfy [p]. *)
Definition sent (p : Command -> bool) (out : list Event) : nat :=
  length (List.filter p (commands out)).

(** The three DR events that have a handler writing the local state. *)
Inductive DREvent : Type :=
| EventCriticalPeak
| EventLoadUp
| EventGridEmergency.

Definition handle (e : DREvent) : M unit :=
  match e with
  | EventCriticalPeak => SetCriticalPeak
  | EventLoadUp => SetLoadUp
  | EventGridEmergency => SetGridEmergency
  end.

(** The code each handler writes to [opstate_] and the command it sends. *)
Definition opstate_of (e : DREvent) : Z :=
  match e with
  | EventCriticalPeak => 4
  | EventLoadUp => 3
  | EventGridEmergency => 5
  end.

Definition command_of (e : DREvent) : Command :=
  match e with
  | EventCriticalPeak => basicCriticalPeakEvent 0
  | EventLoadUp => basicLoadUp 0
  | EventGridEmergency => basicGridEmergency 0
  end.

(** The four settings the constructor converts with [stoul]. *)
Definition numeric_keys : list string :=
  ["mcp_channel"; "ucm_heartbeat"; "log_inc"; "EWH_rated_import_ramp"].

(** What the constructor has sent once the handshake and the log-path
    message are through. *)
Definition handshake_out (configs : gmap string string) : list Event :=
  [Cmd start; Cmd basicOutsideCommConnectionStatus_Found;
   Cmd querySuportDataLinkMessages; Got querySuportDataLinkMessages;
   Cmd queryMaxPayload; Got queryMaxPayload;
   Cmd querySuportIntermediateMessages; Got querySuportIntermediateMessages;
   Cmd intermediateGetDeviceInformation; Got intermediateGetDeviceInformation;
   Stdout (String.append "Log Path: " (at_key configs "log_path"))].

(** The state a tick ends in, whatever its arbitration sends. *)
Definition after_tick (w : World) (s : EWH) : EWH :=
  if log_due w s
  then set_log_minute (to_uint (tm_min w))
         (set_last_utc (to_uint (time0 w)) (refreshed w s))
  else refreshed w s.

(** The members and properties that only the constructor writes. *)
Definition settings (s : EWH) : Z * Z * Z * Z * Z * Z * string * Z * string * Z * Z :=
  (import_watts_ (der s), export_watts_ (der s), export_power_ (der s),
   rated_import_power_ (der s), import_ramp_ (der s), idle_losses_ (der s),
   log_path_ (der s), log_inc_ (der s), sp_ s, current_transducer_1_ s, heartbeat_ s).

(** The calls that are ticks of the reconciliation loop. *)
Definition is_tick (c : Call) : bool :=
  match c with CallLoop _ => true | _ => false end.

(** * Properties *)

(** ** Runs of the monad *)

Lemma with_der_id (s : EWH) : with_der (fun d => d) s = s.
Proof. destruct s; reflexivity. Qed.

Lemma bind_returns {A B} (m : M A) (k : A -> M B) s out a s1 out' r :
  m s = (out, inr (a, s1)) -> k a s1 = (out', r) -> bind m k s = (out ++ out', r).
Proof. intros Hm Hk. unfold bind. rewrite Hm, Hk. reflexivity. Qed.

Lemma bind_aborts {A B} (m : M A) (k : A -> M B) s out e :
  m s = (out, inl e) -> bind m k s = (out, inl e).
Proof. intros Hm. unfold bind. rewrite Hm. reflexivity. Qed.

Lemma telemetry_app (o1 o2 : list Event) :
  telemetry (o1 ++ o2) = telemetry o1 ++ telemetry o2.
Proof.
  induction o1 as [|e o1 IH]; [reflexivity|].
  destruct e; simpl; rewrite IH; reflexivity.
Qed.

(** ** Property refresh *)

Lemma store_commodity_run (c : CommodityData) (s : EWH) :
  (if code c =? 0 then SetImportPower (rate c)
   else if code c =? 6 then SetRatedImportEnergy (cumulative c)
   else if code c =? 7 then SetImportEnergy (cumulative c)
   else ret tt) s
  = ([], inr (tt, with_der (store_commodity c) s)).
Proof.
  unfold store_commodity.
  destruct (code c =? 0); [reflexivity|].
  destruct (code c =? 6); [reflexivity|].
  destruct (code c =? 7); [reflexivity|].
  unfold ret. rewrite with_der_id. reflexivity.
Qed.

Lemma for_each_store (cs : list CommodityData) (s : EWH) :
  for_each cs (fun commodity =>
    if code commodity =? 0 then SetImportPower (rate commodity)
    else if code commodity =? 6 then SetRatedImportEnergy (cumulative commodity)
    else if code commodity =? 7 then SetImportEnergy (cumulative commodity)
    else ret tt) s
  = ([], inr (tt, with_der (store_commodities cs) s)).
Proof.
  revert s. induction cs as [|c cs IH]; intros s.
  - simpl. unfold ret. rewrite with_der_id. reflexivity.
  - cbn [for_each store_commodities].
    unfold bind. rewrite store_commodity_run, IH. reflexivity.
Qed.

Lemma QueryProperties_run (w : World) (s : EWH) :
  QueryProperties w s
  = ([Cmd intermediateGetCommodity; Cmd basicQueryOperationalState],
     inr (tt, with_der (store_commodities (GetCommodityData (ucm_ w))) s)).
Proof.
  unfold QueryProperties, bind, device, emit.
  rewrite for_each_store. reflexivity.
Qed.

Lemma store_commodities_fields (cs : list CommodityData) (d : DistributedEnergyResource) :
  store_commodities cs d
  = mkDER (export_watts_ d) (export_power_ d) (export_energy_ d) (import_watts_ d)
          (latest 0 rate cs (import_power_ d))
          (latest 7 cumulative cs (import_energy_ d))
          (rated_import_power_ d)
          (latest 6 cumulative cs (rated_import_energy_ d))
          (import_ramp_ d) (idle_losses_ d) (log_path_ d) (log_inc_ d).
Proof.
  revert d. induction cs as [|c cs IH]; intros d.
  - destruct d; reflexivity.
  - cbn [store_commodities latest]. rewrite IH. unfold store_commodity.
    destruct (Z.eqb_spec (code c) 0) as [E0|E0].
    { rewrite E0. reflexivity. }
    destruct (Z.eqb_spec (code c) 6) as [E6|E6].
    { rewrite E6. reflexivity. }
    destruct (Z.eqb_spec (code c) 7) as [E7|E7].
    { reflexivity. }
    reflexivity.
Qed.

Lemma latest_old_or_not (k : Z) (f : CommodityData -> Z) (cs : list CommodityData)
  (a b : Z) :
  latest k f cs a = latest k f cs b \/ (latest k f cs a = a /\ latest k f cs b = b).
Proof.
  revert a b. induction cs as [|c cs IH]; intros a b.
  - right. split; reflexivity.
  - cbn [latest]. destruct (code c =? k).
    + left. reflexivity.
    + apply IH.
Qed.

Lemma latest_idempotent (k : Z) (f : CommodityData -> Z) (cs : list CommodityData)
  (a : Z) :
  latest k f cs (latest k f cs a) = latest k f cs a.
Proof.
  destruct (latest_old_or_not k f cs (latest k f cs a) a) as [E|[E _]]; exact E.
Qed.

Lemma latest_last (k : Z) (f : CommodityData -> Z) (pre post : list CommodityData)
  (c : CommodityData) (a : Z) :
  code c = k -> (forall c', In c' post -> code c' <> k) ->
  latest k f (pre ++ c :: post) a = f c.
Proof.
  intros Hc Hpost. revert a. induction pre as [|p pre IH]; intros a.
  - cbn [app latest]. rewrite (proj2 (Z.eqb_eq _ _) Hc).
    clear Hc. generalize (f c) as v. induction post as [|q post IHp]; intros v.
    + reflexivity.
    + cbn [latest].
      destruct (Z.eqb_spec (code q) k) as [E|E].
      * exfalso. apply (Hpost q); [left; reflexivity | exact E].
      * apply IHp. intros c' Hin. apply Hpost. right. exact Hin.
  - cbn [app latest]. apply IH.
Qed.

Lemma store_commodities_idempotent (cs : list CommodityData)
  (d : DistributedEnergyResource) :
  store_commodities cs (store_commodities cs d) = store_commodities cs d.
Proof.
  rewrite (store_commodities_fields cs (store_commodities cs d)).
  rewrite (store_commodities_fields cs d). cbn.
  rewrite !latest_idempotent. reflexivity.
Qed.

(** ** The reconciliation loop *)

Lemma Log_run (w : World) (s : EWH) :
  Log w s
  = ([Telemetry (log_path_ (der s))
        [export_watts_ (der s); export_power_ (der s); export_energy_ (der s);
         import_watts_ (der s); import_power_ (der s); import_energy_ (der s);
         rated_import_energy_ (der s); real_import_power w; GetOpState (ucm_ w)]],
     inr (tt, set_last_utc (to_uint (time0 w)) s)).
Proof. reflexivity. Qed.

Ltac schedule_cases w s :=
  destruct ((to_uint (tm_min w) mod heartbeat_ s =? 0) && (to_uint (tm_sec w) <? 1));
  cbn;
  destruct ((to_uint (tm_sec w) =? 0) && negb (log_minute_ s =? to_uint (tm_min w)));
  cbn;
  (eexists _, _; split; [reflexivity|]; cbn;
   repeat split;
   repeat (constructor; [unfold schedule_command; tauto|]); constructor).

(** The periodic part of a tick returns whenever the heart beat is not
    zero; it sends only queries and the connection status, leaves the local
    state and the heart beat alone, refreshes the store on even seconds, and
    writes one telemetry record exactly when [log_due]. *)
Lemma Loop_schedule_returns (w : World) (s : EWH) :
  heartbeat_ s <> 0 ->
  exists out1 s1,
    Loop_schedule w s = (out1, inr (tt, s1)) /\
    Forall schedule_command (commands out1) /\
    heartbeat_ s1 = heartbeat_ s /\
    opstate_ s1 = opstate_ s /\
    der s1 = (if to_uint (tm_sec w) mod 2 =? 0
              then store_commodities (GetCommodityData (ucm_ w)) (der s)
              else der s) /\
    (if log_due w s
     then length (telemetry out1) = 1%nat /\ log_minute_ s1 = to_uint (tm_min w)
     else telemetry out1 = [] /\ log_minute_ s1 = log_minute_ s).
Proof.
  intros Hhb. apply Z.eqb_neq in Hhb.
  unfold Loop_schedule, log_due, bind, when.
  destruct (to_uint (tm_sec w) mod 2 =? 0).
  - rewrite QueryProperties_run. cbn. rewrite Hhb. cbn. schedule_cases w s.
  - cbn. rewrite Hhb. cbn. schedule_cases w s.
Qed.

(** With a zero heart beat the tick runs into [min % 0]. *)
Lemma Loop_schedule_undefined (w : World) (s : EWH) :
  heartbeat_ s = 0 ->
  exists out, Loop_schedule w s = (out, inl (Undefined "min % heartbeat_")).
Proof.
  intros Hhb. unfold Loop_schedule, bind, when.
  destruct (to_uint (tm_sec w) mod 2 =? 0).
  - rewrite QueryProperties_run. cbn. rewrite Hhb. cbn. eexists. reflexivity.
  - cbn. rewrite Hhb. cbn. eexists. reflexivity.
Qed.

Section Arbitration.

Variables HEIGHTENED GRID CURTAILED : Z.
Variable w : World.
Variable s : EWH.

Lemma arbitration_first_branch :
  0 < import_setpoint_watts s -> import_commanded_watts s = 0 ->
  Loop_arbitration HEIGHTENED GRID CURTAILED w s
  = (if GetOpState (ucm_ w) =? HEIGHTENED then [] else [Cmd (basicLoadUp 0)],
     inr (tt, s)).
Proof.
  unfold import_setpoint_watts, import_commanded_watts. intros Hw Hp.
  unfold Loop_arbitration, bind. cbn.
  rewrite Hp. rewrite (proj2 (Z.gtb_lt _ _) Hw). cbn.
  destruct (GetOpState (ucm_ w) =? HEIGHTENED); reflexivity.
Qed.

Lemma arbitration_second_branch :
  0 < import_commanded_watts s -> import_setpoint_watts s = 0 ->
  Loop_arbitration HEIGHTENED GRID CURTAILED w s
  = (if negb (GetOpState (ucm_ w) =? GRID) || negb (GetOpState (ucm_ w) =? CURTAILED)
     then [Cmd (basicShed 0)] else [],
     inr (tt, s)).
Proof.
  unfold import_setpoint_watts, import_commanded_watts. intros Hp Hw.
  unfold Loop_arbitration, bind. cbn.
  rewrite Hw. rewrite (proj2 (Z.gtb_lt _ _) Hp). cbn.
  destruct (negb (GetOpState (ucm_ w) =? GRID) || negb (GetOpState (ucm_ w) =? CURTAILED));
    reflexivity.
Qed.

Lemma arbitration_agree :
  (import_setpoint_watts s = 0 /\ import_commanded_watts s = 0) \/
  (import_setpoint_watts s <> 0 /\ import_commanded_watts s <> 0) ->
  Loop_arbitration HEIGHTENED GRID CURTAILED w s = ([], inr (tt, s)).
Proof.
  unfold import_setpoint_watts, import_commanded_watts. intros Hag.
  unfold Loop_arbitration, bind. cbn.
  destruct Hag as [[Hw Hp]|[Hw Hp]].
  - rewrite Hw, Hp. reflexivity.
  - apply Z.eqb_neq in Hw, Hp. rewrite Hw, Hp, !andb_false_r. reflexivity.
Qed.

Lemma arbitration_at_most_one :
  exists out2,
    Loop_arbitration HEIGHTENED GRID CURTAILED w s = (out2, inr (tt, s)) /\
    (out2 = [] \/ out2 = [Cmd (basicLoadUp 0)] \/ out2 = [Cmd (basicShed 0)]).
Proof.
  unfold Loop_arbitration, bind. cbn.
  destruct ((import_watts_ (der s) >? 0) && (import_power_ (der s) =? 0)).
  - destruct (GetOpState (ucm_ w) =? HEIGHTENED); cbn; eexists; split;
      try reflexivity; tauto.
  - destruct ((import_power_ (der s) >? 0) && (import_watts_ (der s) =? 0)).
    + destruct (negb (GetOpState (ucm_ w) =? GRID)
                || negb (GetOpState (ucm_ w) =? CURTAILED));
        cbn; eexists; split; try reflexivity; tauto.
    + eexists; split; try reflexivity; tauto.
Qed.

(** A tick is its periodic part followed by the arbitration. *)
Lemma Loop_run (s0 : EWH) (out1 out2 : list Event) r :
  Loop_schedule w s0 = (out1, inr (tt, s)) ->
  Loop_arbitration HEIGHTENED GRID CURTAILED w s = (out2, r) ->
  Loop HEIGHTENED GRID CURTAILED w s0 = (out1 ++ out2, r).
Proof. intros H1 H2. unfold Loop. apply (bind_returns _ _ _ _ _ _ _ _ H1 H2). Qed.

End Arbitration.

Lemma Loop_schedule_inv (w : World) (s s1 : EWH) (out1 : list Event) :
  Loop_schedule w s = (out1, inr (tt, s1)) ->
  heartbeat_ s <> 0 /\
  Forall schedule_command (commands out1) /\
  heartbeat_ s1 = heartbeat_ s /\
  opstate_ s1 = opstate_ s /\
  der s1 = (if to_uint (tm_sec w) mod 2 =? 0
            then store_commodities (GetCommodityData (ucm_ w)) (der s)
            else der s) /\
  (if log_due w s
   then length (telemetry out1) = 1%nat /\ log_minute_ s1 = to_uint (tm_min w)
   else telemetry out1 = [] /\ log_minute_ s1 = log_minute_ s).
Proof.
  intros Hrun. destruct (Z.eq_dec (heartbeat_ s) 0) as [Hz|Hnz].
  - destruct (Loop_schedule_undefined w s Hz) as [out Hu].
    rewrite Hu in Hrun. discriminate Hrun.
  - split; [exact Hnz|].
    destruct (Loop_schedule_returns w s Hnz) as (out & s' & Hr & Hrest).
    rewrite Hr in Hrun. injection Hrun as <- <-. exact Hrest.
Qed.

Lemma In_commands (c : Command) (out : list Event) :
  In (Cmd c) out <-> In c (commands out).
Proof.
  induction out as [|e out IH]; [simpl; tauto|].
  destruct e as [c'| | | |]; simpl; rewrite IH;
    try (split; [intros [H|H]; [discriminate H | exact H] | intros H; right; exact H]).
  split; (intros [H|H]; [left | right; exact H]); congruence.
Qed.

Lemma schedule_sends_no_power_command (out : list Event) (d : Z) :
  Forall schedule_command (commands out) ->
  ~ In (Cmd (basicLoadUp d)) out /\ ~ In (Cmd (basicShed d)) out.
Proof.
  intros Hall.
  split; intros Hin; apply In_commands in Hin;
    apply (proj1 (List.Forall_forall _ _) Hall) in Hin;
    destruct Hin as [H|[H|H]]; discriminate H.
Qed.

(** A tick with a non-zero heart beat returns; it never touches the local
    state, the heart beat or the export energy, and it writes one telemetry
    record exactly when [log_due]. *)
Lemma Loop_tick (HEIGHTENED GRID CURTAILED : Z) (w : World) (s : EWH) :
  heartbeat_ s <> 0 ->
  exists out s',
    Loop HEIGHTENED GRID CURTAILED w s = (out, inr (tt, s')) /\
    heartbeat_ s' = heartbeat_ s /\
    opstate_ s' = opstate_ s /\
    export_energy_ (der s') = export_energy_ (der s) /\
    (if log_due w s
     then length (telemetry out) = 1%nat /\ log_minute_ s' = to_uint (tm_min w)
     else telemetry out = [] /\ log_minute_ s' = log_minute_ s).
Proof.
  intros Hhb.
  destruct (Loop_schedule_returns w s Hhb) as (out1 & s1 & Hs & _ & Hh & Ho & Hd & Hl).
  destruct (arbitration_at_most_one HEIGHTENED GRID CURTAILED w s1) as (out2 & Ha & Hout2).
  exists (out1 ++ out2), s1.
  split; [exact (Loop_run _ _ _ _ _ _ _ _ _ Hs Ha)|].
  split; [exact Hh|]. split; [exact Ho|].
  split.
  { rewrite Hd. destruct (to_uint (tm_sec w) mod 2 =? 0); [|reflexivity].
    rewrite store_commodities_fields. reflexivity. }
  assert (Ht : telemetry out2 = []).
  { destruct Hout2 as [->|[->| ->]]; reflexivity. }
  rewrite telemetry_app, Ht, app_nil_r. exact Hl.
Qed.

(** ** Power arbitration *)

(** C1.  When a tick reaches the arbitration with commanded import above
    zero and a zero import setpoint, the guard of the second branch, "the
    reported state is not GRID or is not CURTAILED", holds for every state
    value (the two codes being different), so the tick sends the idle-loss
    command, a shed of duration zero, whatever state the device reports,
    GRID and CURTAILED included.  (The periodic part of the tick returns
    whenever the heart beat is not zero: [Loop_schedule_returns].) *)
Theorem shed_guard_never_blocks (HEIGHTENED GRID CURTAILED : Z) (w : World)
  (s s1 : EWH) (out1 : list Event) :
  GRID <> CURTAILED ->
  Loop_schedule w s = (out1, inr (tt, s1)) ->
  0 < import_commanded_watts s1 ->
  import_setpoint_watts s1 = 0 ->
  (forall state : Z, negb (state =? GRID) || negb (state =? CURTAILED) = true) /\
  Loop_arbitration HEIGHTENED GRID CURTAILED w s1 = ([Cmd (basicShed 0)], inr (tt, s1)) /\
  Loop HEIGHTENED GRID CURTAILED w s = (out1 ++ [Cmd (basicShed 0)], inr (tt, s1)).
Proof.
  intros Hne Hs Hp Hw.
  assert (Hguard : forall state : Z,
             negb (state =? GRID) || negb (state =? CURTAILED) = true).
  { intros state. destruct (Z.eqb_spec state GRID) as [->|_]; [|reflexivity].
    destruct (Z.eqb_spec GRID CURTAILED) as [E|_]; [contradiction|reflexivity]. }
  assert (Ha : Loop_arbitration HEIGHTENED GRID CURTAILED w s1
               = ([Cmd (basicShed 0)], inr (tt, s1))).
  { rewrite (arbitration_second_branch _ _ _ _ _ Hp Hw), Hguard. reflexivity. }
  split; [exact Hguard|]. split; [exact Ha|].
  exact (Loop_run _ _ _ _ _ _ _ _ _ Hs Ha).
Qed.

(** C3.  When a tick reaches the arbitration with an import setpoint above
    zero and zero commanded import, it sends the load-up command (duration
    zero) if and only if the device-reported state differs from HEIGHTENED:
    for any other code, such as the one for NORMAL, the command is the one
    thing the arbitration sends, and for HEIGHTENED it sends nothing.  (The
    periodic part of the tick returns whenever the heart beat is not zero:
    [Loop_schedule_returns].) *)
Theorem resume_import_gating (HEIGHTENED GRID CURTAILED : Z) (w : World)
  (s s1 : EWH) (out1 : list Event) :
  Loop_schedule w s = (out1, inr (tt, s1)) ->
  0 < import_setpoint_watts s1 ->
  import_commanded_watts s1 = 0 ->
  exists out2,
    Loop HEIGHTENED GRID CURTAILED w s = (out1 ++ out2, inr (tt, s1)) /\
    (In (Cmd (basicLoadUp 0)) (out1 ++ out2) <-> GetOpState (ucm_ w) <> HEIGHTENED) /\
    (forall NORMAL : Z, NORMAL <> HEIGHTENED -> GetOpState (ucm_ w) = NORMAL ->
       out2 = [Cmd (basicLoadUp 0)]) /\
    (GetOpState (ucm_ w) = HEIGHTENED -> out2 = []).
Proof.
  intros Hs Hw Hp.
  destruct (Loop_schedule_inv _ _ _ _ Hs) as (_ & Hcmds & _).
  destruct (schedule_sends_no_power_command out1 0 Hcmds) as [Hno _].
  pose proof (arbitration_first_branch HEIGHTENED GRID CURTAILED w s1 Hw Hp) as Ha.
  eexists. split; [exact (Loop_run _ _ _ _ _ _ _ _ _ Hs Ha)|].
  destruct (Z.eqb_spec (GetOpState (ucm_ w)) HEIGHTENED) as [E|E].
  - split; [|split].
    + rewrite app_nil_r. split; [intros Hin; contradiction | intros Hn; contradiction].
    + intros NORMAL Hne Hst. congruence.
    + reflexivity.
  - split; [|split].
    + split; [intros _; exact E | intros _; apply in_or_app; right; left; reflexivity].
    + reflexivity.
    + intros Hst. contradiction.
Qed.

(** C4.  When a tick reaches the arbitration, its periodic part has sent
    neither a load-up nor a shed command, and the arbitration sends nothing,
    the load-up command alone, or the shed command alone, never both; when
    the import setpoint and the commanded import are both zero or both
    non-zero it sends nothing, so the tick carries no load-up and no shed
    command.  (The periodic part returns whenever the heart beat is not
    zero: [Loop_schedule_returns].) *)
Theorem arbitration_exclusive (HEIGHTENED GRID CURTAILED : Z) (w : World)
  (s s1 : EWH) (out1 : list Event) :
  Loop_schedule w s = (out1, inr (tt, s1)) ->
  exists out2,
    Loop HEIGHTENED GRID CURTAILED w s = (out1 ++ out2, inr (tt, s1)) /\
    (forall d : Z, ~ In (Cmd (basicLoadUp d)) out1 /\ ~ In (Cmd (basicShed d)) out1) /\
    (out2 = [] \/ out2 = [Cmd (basicLoadUp 0)] \/ out2 = [Cmd (basicShed 0)]) /\
    ((import_setpoint_watts s1 = 0 /\ import_commanded_watts s1 = 0) \/
     (import_setpoint_watts s1 <> 0 /\ import_commanded_watts s1 <> 0) ->
     out2 = [] /\
     forall d : Z, ~ In (Cmd (basicLoadUp d)) (out1 ++ out2) /\
                   ~ In (Cmd (basicShed d)) (out1 ++ out2)).
Proof.
  intros Hs.
  destruct (Loop_schedule_inv _ _ _ _ Hs) as (_ & Hcmds & _).
  destruct (arbitration_at_most_one HEIGHTENED GRID CURTAILED w s1) as (out2 & Ha & Hout2).
  exists out2. split; [exact (Loop_run _ _ _ _ _ _ _ _ _ Hs Ha)|].
  split; [intros d; exact (schedule_sends_no_power_command out1 d Hcmds)|].
  split; [exact Hout2|].
  intros Hag. rewrite (arbitration_agree _ _ _ _ _ Hag) in Ha.
  injection Ha as <-. split; [reflexivity|].
  intros d. rewrite app_nil_r. exact (schedule_sends_no_power_command out1 d Hcmds).
Qed.

(** ** Property refresh, as the claims see it *)

(** C5.  A property refresh returns, and running it again on the state it
    produced, with the UCM content unchanged, sends the same two queries and
    leaves the whole object, the property store included, as the first run
    left it. *)
Theorem refresh_idempotent (w : World) (s : EWH) :
  exists out s1,
    QueryProperties w s = (out, inr (tt, s1)) /\
    QueryProperties w s1 = (out, inr (tt, s1)).
Proof.
  rewrite QueryProperties_run. eexists _, _. split; [reflexivity|].
  rewrite QueryProperties_run. unfold with_der. cbn.
  rewrite store_commodities_idempotent. reflexivity.
Qed.

(** C2, amended.  A property refresh stores the rate of the last reading
    with code 0 in the property read by [GetImportPower], which is the
    commanded-import side of the arbitration (tested [== 0] by its first
    branch and [> 0] by its second); the import setpoint, read by
    [GetImportWatts], is not written by a refresh. *)
Theorem code_zero_sets_commanded_watts (w : World) (s : EWH)
  (pre post : list CommodityData) (c : CommodityData) :
  GetCommodityData (ucm_ w) = pre ++ c :: post ->
  code c = 0 ->
  (forall c', In c' post -> code c' <> 0) ->
  exists out s',
    QueryProperties w s = (out, inr (tt, s')) /\
    import_commanded_watts s' = rate c /\
    import_setpoint_watts s' = import_setpoint_watts s.
Proof.
  intros Hcs Hc Hpost. rewrite QueryProperties_run. eexists _, _.
  split; [reflexivity|].
  unfold import_commanded_watts, import_setpoint_watts, with_der. cbn.
  rewrite store_commodities_fields, Hcs. cbn.
  split; [|reflexivity]. apply latest_last; assumption.
Qed.

(** ** The DR event handlers *)

(** C10.  Each of SetCriticalPeak, SetLoadUp and SetGridEmergency returns
    the object with only the local operational state rewritten (to 4, 3 and
    5): the property store, the last logged minute and every other member
    are as before.  Each sends exactly one device command, of duration zero
    (next to one line in the log). *)
Theorem handlers_write_opstate_only (s : EWH) :
  Forall (fun h : M unit * Z =>
            exists out s' c,
              fst h s = (out, inr (tt, s')) /\
              s' = set_opstate (snd h) s /\
              der s' = der s /\
              log_minute_ s' = log_minute_ s /\
              sp_ s' = sp_ s /\
              current_transducer_1_ s' = current_transducer_1_ s /\
              heartbeat_ s' = heartbeat_ s /\
              response_codes_ s' = response_codes_ s /\
              last_utc_ s' = last_utc_ s /\
              opstate_ s' = snd h /\
              commands out = [c] /\
              duration_of c = Some 0)
         [(SetCriticalPeak, 4); (SetLoadUp, 3); (SetGridEmergency, 5)] /\
  commands (fst (SetCriticalPeak s)) = [basicCriticalPeakEvent 0] /\
  commands (fst (SetLoadUp s)) = [basicLoadUp 0] /\
  commands (fst (SetGridEmergency s)) = [basicGridEmergency 0].
Proof.
  split; [|repeat split].
  repeat constructor; cbn; eexists _, _, _; repeat split.
Qed.

(** ** Construction *)

Lemma ElectricWaterHeater_run (stoul : string -> option Z)
  (configs : gmap string string) (w : World) (s0 : EWH) (channel hb inc ramp : Z) :
  stoul (at_key configs "mcp_channel") = Some channel ->
  stoul (at_key configs "ucm_heartbeat") = Some hb ->
  stoul (at_key configs "log_inc") = Some inc ->
  stoul (at_key configs "EWH_rated_import_ramp") = Some ramp ->
  ElectricWaterHeater stoul configs true w s0
  = (startup_out configs ++
     [Cmd intermediateGetCommodity; Cmd basicQueryOperationalState],
     inr (tt, with_der (store_commodities (GetCommodityData (ucm_ w)))
                (initialised configs w s0 channel hb inc ramp))).
Proof.
  intros Hc Hh Hi Hr.
  unfold ElectricWaterHeater, bind, stoul_or_throw.
  rewrite Hc, Hh, Hi, Hr. cbn -[QueryProperties].
  rewrite QueryProperties_run. reflexivity.
Qed.

(** The constructor returns only with the port open and the four numeric
    settings convertible. *)
Lemma ElectricWaterHeater_inv (stoul : string -> option Z)
  (configs : gmap string string) (open_ok : bool) (w : World) (s0 s' : EWH)
  (out : list Event) :
  ElectricWaterHeater stoul configs open_ok w s0 = (out, inr (tt, s')) ->
  open_ok = true /\
  exists channel hb inc ramp,
    stoul (at_key configs "mcp_channel") = Some channel /\
    stoul (at_key configs "ucm_heartbeat") = Some hb /\
    stoul (at_key configs "log_inc") = Some inc /\
    stoul (at_key configs "EWH_rated_import_ramp") = Some ramp.
Proof.
  unfold ElectricWaterHeater, bind, stoul_or_throw.
  destruct (stoul (at_key configs "mcp_channel")) as [channel|]; cbn; [|discriminate].
  destruct (stoul (at_key configs "ucm_heartbeat")) as [hb|]; cbn; [|discriminate].
  destruct open_ok; cbn; [|discriminate].
  destruct (stoul (at_key configs "log_inc")) as [inc|]; cbn; [|discriminate].
  destruct (stoul (at_key configs "EWH_rated_import_ramp")) as [ramp|]; cbn;
    [|discriminate].
  intros _. split; [reflexivity|]. eexists _, _, _, _. repeat split.
Qed.

(** With the port closed the constructor logs the error and exits with
    status 1. *)
Lemma ElectricWaterHeater_exits (stoul : string -> option Z)
  (configs : gmap string string) (w : World) (s0 : EWH) (channel hb : Z) :
  stoul (at_key configs "mcp_channel") = Some channel ->
  stoul (at_key configs "ucm_heartbeat") = Some hb ->
  ElectricWaterHeater stoul configs false w s0
  = ([Logged "ERROR" (log_path_ (der s0))
        (String.append "failed to open serial port: " (strerror_errno w))],
     inl (Exit 1)).
Proof.
  intros Hc Hh. unfold ElectricWaterHeater, bind, stoul_or_throw.
  rewrite Hc, Hh. reflexivity.
Qed.

(** C9, amended.  With the port open and the four numeric settings
    convertible, the constructor returns.  It first runs the handshake, each
    of the four queries awaited before the next is sent; it then sets the
    rated import power to the constant 4500, the export energy to 0, the
    import ramp to the configured EWH_rated_import_ramp and the idle losses
    to the constant 100; and it ends with one property refresh, which keeps
    those values. *)
Theorem construction_initialises_properties (stoul : string -> option Z)
  (configs : gmap string string) (w : World) (s0 : EWH) (channel hb inc ramp : Z) :
  stoul (at_key configs "mcp_channel") = Some channel ->
  stoul (at_key configs "ucm_heartbeat") = Some hb ->
  stoul (at_key configs "log_inc") = Some inc ->
  stoul (at_key configs "EWH_rated_import_ramp") = Some ramp ->
  exists out s_init s',
    ElectricWaterHeater stoul configs true w s0
    = (startup_out configs ++ out, inr (tt, s')) /\
    QueryProperties w s_init = (out, inr (tt, s')) /\
    rated_import_power_ (der s_init) = 4500 /\
    export_energy_ (der s_init) = 0 /\
    import_ramp_ (der s_init) = ramp /\
    idle_losses_ (der s_init) = 100 /\
    rated_import_power_ (der s') = 4500 /\
    import_ramp_ (der s') = ramp /\
    idle_losses_ (der s') = 100.
Proof.
  intros Hc Hh Hi Hr.
  exists [Cmd intermediateGetCommodity; Cmd basicQueryOperationalState],
    (initialised configs w s0 channel hb inc ramp),
    (with_der (store_commodities (GetCommodityData (ucm_ w)))
       (initialised configs w s0 channel hb inc ramp)).
  split; [exact (ElectricWaterHeater_run _ _ _ _ _ _ _ _ Hc Hh Hi Hr)|].
  split; [apply QueryProperties_run|].
  unfold with_der. cbn. rewrite store_commodities_fields. cbn.
  repeat split.
Qed.

(** ** Invariants over sequences of calls *)

Lemma bind_inv {A B} (m : M A) (k : A -> M B) s out b s' :
  bind m k s = (out, inr (b, s')) ->
  exists out1 a s1 out2,
    m s = (out1, inr (a, s1)) /\ k a s1 = (out2, inr (b, s')) /\ out = out1 ++ out2.
Proof.
  unfold bind. destruct (m s) as [out1 [e|[a s1]]]; [discriminate|].
  destruct (k a s1) as [out2 r] eqn:Hk. intros H. injection H as Hout Hr. subst.
  exists out1, a, s1, out2. split; [reflexivity|]. split; [exact Hk | reflexivity].
Qed.

Lemma Loop_inv (HEIGHTENED GRID CURTAILED : Z) (w : World) (s s' : EWH)
  (out : list Event) :
  Loop HEIGHTENED GRID CURTAILED w s = (out, inr (tt, s')) ->
  heartbeat_ s <> 0 /\
  heartbeat_ s' = heartbeat_ s /\
  opstate_ s' = opstate_ s /\
  export_energy_ (der s') = export_energy_ (der s).
Proof.
  intros Hrun. destruct (Z.eq_dec (heartbeat_ s) 0) as [Hz|Hnz].
  - destruct (Loop_schedule_undefined w s Hz) as [o Hu].
    unfold Loop in Hrun. rewrite (bind_aborts _ _ _ _ _ Hu) in Hrun. discriminate Hrun.
  - split; [exact Hnz|].
    destruct (Loop_tick HEIGHTENED GRID CURTAILED w s Hnz)
      as (o & s2 & Hr & Hh & Ho & He & _).
    rewrite Hr in Hrun. injection Hrun as <- <-. auto.
Qed.

(** No method changes a zero export energy. *)
Lemma call_keeps_export_energy_zero (HEIGHTENED GRID CURTAILED : Z) (c : Call)
  (s s' : EWH) (out : list Event) :
  call HEIGHTENED GRID CURTAILED c s = (out, inr (tt, s')) ->
  export_energy_ (der s) = 0 -> export_energy_ (der s') = 0.
Proof.
  destruct c; cbn [call]; intros Hrun Hz;
    try (injection Hrun as <- <-; exact Hz);
    try (injection Hrun as <- <-; reflexivity).
  - rewrite QueryProperties_run in Hrun. injection Hrun as <- <-.
    cbn. rewrite store_commodities_fields. exact Hz.
  - apply Loop_inv in Hrun. destruct Hrun as (_ & _ & _ & He). congruence.
Qed.

(** Only the three DR event handlers write the local operational state. *)
Lemma call_keeps_opstate (HEIGHTENED GRID CURTAILED : Z) (c : Call)
  (s s' : EWH) (out : list Event) :
  c <> CallSetCriticalPeak -> c <> CallSetLoadUp -> c <> CallSetGridEmergency ->
  call HEIGHTENED GRID CURTAILED c s = (out, inr (tt, s')) ->
  opstate_ s' = opstate_ s.
Proof.
  destruct c; cbn [call]; intros H1 H2 H3 Hrun; try contradiction;
    try (injection Hrun as <- <-; reflexivity).
  - rewrite QueryProperties_run in Hrun. injection Hrun as <- <-. reflexivity.
  - apply Loop_inv in Hrun. tauto.
Qed.

Lemma ticks_keep_opstate (HEIGHTENED GRID CURTAILED : Z) (ws : list World) (s : EWH) :
  heartbeat_ s <> 0 ->
  exists out s',
    ticks HEIGHTENED GRID CURTAILED ws s = (out, inr (tt, s')) /\
    opstate_ s' = opstate_ s.
Proof.
  revert s. induction ws as [|w ws IH]; intros s Hhb.
  - exists [], s. split; reflexivity.
  - destruct (Loop_tick HEIGHTENED GRID CURTAILED w s Hhb)
      as (o1 & s1 & Hr & Hh & Ho & _).
    destruct (IH s1) as (o2 & s2 & Hr2 & Ho2); [congruence|].
    exists (o1 ++ o2), s2. split; [|congruence].
    unfold ticks. cbn [for_each]. exact (bind_returns _ _ _ _ _ _ _ _ Hr Hr2).
Qed.

(** C7.  ExportPower returns with the export energy at zero, from every
    state.  A constructor that returns leaves the export energy at zero, and
    from a state with zero export energy every sequence of method calls that
    returns ends in a state with zero export energy. *)
Theorem export_energy_always_zero :
  (forall s : EWH,
     exists s', ExportPower s = ([], inr (tt, s')) /\ export_energy_ (der s') = 0) /\
  (forall (stoul : string -> option Z) (configs : gmap string string)
          (open_ok : bool) (w : World) (s0 s' : EWH) (out : list Event),
     ElectricWaterHeater stoul configs open_ok w s0 = (out, inr (tt, s')) ->
     export_energy_ (der s') = 0) /\
  (forall (HEIGHTENED GRID CURTAILED : Z) (calls : list Call) (s s' : EWH)
          (out : list Event),
     for_each calls (call HEIGHTENED GRID CURTAILED) s = (out, inr (tt, s')) ->
     export_energy_ (der s) = 0 ->
     export_energy_ (der s') = 0).
Proof.
  split; [|split].
  - intros s. eexists. split; reflexivity.
  - intros stoul configs open_ok w s0 s' out Hrun.
    destruct (ElectricWaterHeater_inv _ _ _ _ _ _ _ Hrun)
      as (-> & channel & hb & inc & ramp & Hc & Hh & Hi & Hr).
    rewrite (ElectricWaterHeater_run _ _ _ _ _ _ _ _ Hc Hh Hi Hr) in Hrun.
    injection Hrun as _ <-. cbn. rewrite store_commodities_fields. reflexivity.
  - intros HEIGHTENED GRID CURTAILED calls.
    induction calls as [|c calls IH]; intros s s' out Hrun Hz.
    + injection Hrun as _ <-. exact Hz.
    + cbn [for_each] in Hrun. apply bind_inv in Hrun.
      destruct Hrun as (o1 & [] & s1 & o2 & Hc & Hrest & _).
      apply (IH s1 s' o2 Hrest).
      exact (call_keeps_export_energy_zero _ _ _ _ _ _ _ Hc Hz).
Qed.

(** C8, amended.  EndCurtailment sends one end-shed command of duration
    zero and returns the object unchanged, the local operational state
    included; and no number of later ticks of the reconciliation loop changes
    the local operational state either: the arbitration never writes it.
    Of all the methods, only SetCriticalPeak, SetLoadUp and SetGridEmergency
    change it. *)
Theorem EndCurtailment_and_ticks_keep_opstate (HEIGHTENED GRID CURTAILED : Z)
  (ws : list World) (s : EWH) :
  heartbeat_ s <> 0 ->
  EndCurtailment s
  = ([Cmd (basicEndShed 0);
      Stdout "Debugging: Ending previous curtailment for new command."],
     inr (tt, s)) /\
  (exists out s',
     ticks HEIGHTENED GRID CURTAILED ws s = (out, inr (tt, s')) /\
     opstate_ s' = opstate_ s) /\
  (forall (c : Call) (out : list Event) (s' : EWH),
     c <> CallSetCriticalPeak -> c <> CallSetLoadUp -> c <> CallSetGridEmergency ->
     call HEIGHTENED GRID CURTAILED c s = (out, inr (tt, s')) ->
     opstate_ s' = opstate_ s).
Proof.
  intros Hhb. split; [reflexivity|]. split.
  - apply ticks_keep_opstate. exact Hhb.
  - intros c out s' H1 H2 H3 Hrun.
    exact (call_keeps_opstate _ _ _ _ _ _ _ H1 H2 H3 Hrun).
Qed.

(** ** Log cadence *)

Lemma log_due_off_second (w : World) (s : EWH) (sec : Z) :
  tm_sec w = sec -> 0 < sec < 2 ^ 32 -> log_due w s = false.
Proof.
  intros Hsec Hr. unfold log_due, to_uint. rewrite Hsec, Z.mod_small by lia.
  destruct (Z.eqb_spec sec 0); [lia | reflexivity].
Qed.

Lemma log_due_second_zero (w : World) (s : EWH) (m : Z) :
  tm_sec w = 0 -> tm_min w = m -> 0 <= m < 60 ->
  to_uint (tm_min w) = m /\ log_due w s = negb (log_minute_ s =? m).
Proof.
  intros Hsec Hmin Hm. unfold log_due, to_uint.
  rewrite Hsec, Hmin, (Z.mod_small m) by lia. split; reflexivity.
Qed.

(** C6.  Five ticks sampled at seconds 58, 59, 0, 0 and 1 of one minute
    [m], started with a last logged minute other than [m], all return and
    together write exactly one telemetry record: the first tick at second 0
    writes it and records [m] as the last logged minute, and the second
    tick at second 0, like the three other ticks, writes none. *)
Theorem one_log_record_per_minute (HEIGHTENED GRID CURTAILED : Z)
  (w1 w2 w3 w4 w5 : World) (s : EWH) (m : Z) :
  heartbeat_ s <> 0 ->
  0 <= m < 60 ->
  log_minute_ s <> m ->
  map tm_sec [w1; w2; w3; w4; w5] = [58; 59; 0; 0; 1] ->
  map tm_min [w1; w2; w3; w4; w5] = [m; m; m; m; m] ->
  exists o1 o2 o3 o4 o5 s1 s2 s3 s4 s5,
    Loop HEIGHTENED GRID CURTAILED w1 s = (o1, inr (tt, s1)) /\
    Loop HEIGHTENED GRID CURTAILED w2 s1 = (o2, inr (tt, s2)) /\
    Loop HEIGHTENED GRID CURTAILED w3 s2 = (o3, inr (tt, s3)) /\
    Loop HEIGHTENED GRID CURTAILED w4 s3 = (o4, inr (tt, s4)) /\
    Loop HEIGHTENED GRID CURTAILED w5 s4 = (o5, inr (tt, s5)) /\
    ticks HEIGHTENED GRID CURTAILED [w1; w2; w3; w4; w5] s
    = (o1 ++ o2 ++ o3 ++ o4 ++ o5, inr (tt, s5)) /\
    telemetry o1 = [] /\
    telemetry o2 = [] /\
    length (telemetry o3) = 1%nat /\ log_minute_ s3 = m /\
    telemetry o4 = [] /\ log_minute_ s4 = m /\
    telemetry o5 = [] /\
    length (telemetry (o1 ++ o2 ++ o3 ++ o4 ++ o5)) = 1%nat.
Proof.
  intros Hhb Hm Hlm Hsecs Hmins.
  injection Hsecs as Hs1 Hs2 Hs3 Hs4 Hs5.
  injection Hmins as Hm1 Hm2 Hm3 Hm4 Hm5.
  destruct (Loop_tick HEIGHTENED GRID CURTAILED w1 s Hhb)
    as (o1 & s1 & R1 & Hb1 & _ & _ & L1).
  rewrite (log_due_off_second w1 s 58 Hs1) in L1 by lia. destruct L1 as [T1 M1].
  destruct (Loop_tick HEIGHTENED GRID CURTAILED w2 s1 ltac:(congruence))
    as (o2 & s2 & R2 & Hb2 & _ & _ & L2).
  rewrite (log_due_off_second w2 s1 59 Hs2) in L2 by lia. destruct L2 as [T2 M2].
  destruct (Loop_tick HEIGHTENED GRID CURTAILED w3 s2 ltac:(congruence))
    as (o3 & s3 & R3 & Hb3 & _ & _ & L3).
  destruct (log_due_second_zero w3 s2 m Hs3 Hm3 Hm) as [U3 D3].
  rewrite D3, U3 in L3.
  assert (E3 : (log_minute_ s2 =? m) = false) by (apply Z.eqb_neq; congruence).
  rewrite E3 in L3. cbn [negb] in L3. destruct L3 as [T3 M3].
  destruct (Loop_tick HEIGHTENED GRID CURTAILED w4 s3 ltac:(congruence))
    as (o4 & s4 & R4 & Hb4 & _ & _ & L4).
  destruct (log_due_second_zero w4 s3 m Hs4 Hm4 Hm) as [U4 D4].
  rewrite D4, M3, Z.eqb_refl in L4. cbn [negb] in L4. destruct L4 as [T4 M4].
  destruct (Loop_tick HEIGHTENED GRID CURTAILED w5 s4 ltac:(congruence))
    as (o5 & s5 & R5 & _ & _ & _ & L5).
  rewrite (log_due_off_second w5 s4 1 Hs5) in L5 by lia. destruct L5 as [T5 _].
  exists o1, o2, o3, o4, o5, s1, s2, s3, s4, s5.
  repeat (split; [assumption|]).
  split.
  { unfold ticks. cbn [for_each].
    refine (bind_returns _ _ _ _ _ _ _ _ R1 _).
    refine (bind_returns _ _ _ _ _ _ _ _ R2 _).
    refine (bind_returns _ _ _ _ _ _ _ _ R3 _).
    refine (bind_returns _ _ _ _ _ _ _ _ R4 _).
    rewrite <- (app_nil_r o5).
    refine (bind_returns _ _ _ _ _ _ _ _ R5 _). reflexivity. }
  repeat (split; [first [assumption | congruence]|]).
  rewrite !telemetry_app, T1, T2, T4, T5, app_nil_r. exact T3.
Qed.

(** * Further properties of the code *)

(** ** The tick, in full *)

(** What the periodic part of a tick sends and the state it leaves. *)
Lemma Loop_schedule_run (w : World) (s : EWH) :
  heartbeat_ s <> 0 ->
  Loop_schedule w s
  = ((if to_uint (tm_sec w) mod 2 =? 0
      then [Cmd intermediateGetCommodity; Cmd basicQueryOperationalState] else []) ++
     (if heartbeat_due w s then [Cmd basicOutsideCommConnectionStatus_Found] else []) ++
     (if log_due w s
      then [Telemetry (log_path_ (der (refreshed w s)))
              (telemetry_record w (refreshed w s))]
      else []),
     inr (tt, if log_due w s
              then set_log_minute (to_uint (tm_min w))
                     (set_last_utc (to_uint (time0 w)) (refreshed w s))
              else refreshed w s)).
Proof.
  intros Hhb. apply Z.eqb_neq in Hhb.
  unfold Loop_schedule, log_due, heartbeat_due, refreshed, bind, when.
  destruct (to_uint (tm_sec w) mod 2 =? 0).
  - rewrite QueryProperties_run. cbn. rewrite Hhb. cbn.
    destruct ((to_uint (tm_min w) mod heartbeat_ s =? 0) && (to_uint (tm_sec w) <? 1));
      cbn;
      destruct ((to_uint (tm_sec w) =? 0) && negb (log_minute_ s =? to_uint (tm_min w)));
      reflexivity.
  - cbn. rewrite Hhb. cbn.
    destruct ((to_uint (tm_min w) mod heartbeat_ s =? 0) && (to_uint (tm_sec w) <? 1));
      cbn;
      destruct ((to_uint (tm_sec w) =? 0) && negb (log_minute_ s =? to_uint (tm_min w)));
      reflexivity.
Qed.

(** The frame of the refresh: which fields it can change. *)
Lemma refreshed_frame (w : World) (s : EWH) :
  export_watts_ (der (refreshed w s)) = export_watts_ (der s) /\
  export_power_ (der (refreshed w s)) = export_power_ (der s) /\
  export_energy_ (der (refreshed w s)) = export_energy_ (der s) /\
  import_watts_ (der (refreshed w s)) = import_watts_ (der s) /\
  rated_import_power_ (der (refreshed w s)) = rated_import_power_ (der s) /\
  import_ramp_ (der (refreshed w s)) = import_ramp_ (der s) /\
  idle_losses_ (der (refreshed w s)) = idle_losses_ (der s) /\
  log_path_ (der (refreshed w s)) = log_path_ (der s) /\
  log_inc_ (der (refreshed w s)) = log_inc_ (der s) /\
  sp_ (refreshed w s) = sp_ s /\
  current_transducer_1_ (refreshed w s) = current_transducer_1_ s /\
  heartbeat_ (refreshed w s) = heartbeat_ s /\
  response_codes_ (refreshed w s) = response_codes_ s /\
  opstate_ (refreshed w s) = opstate_ s /\
  log_minute_ (refreshed w s) = log_minute_ s /\
  last_utc_ (refreshed w s) = last_utc_ s.
Proof.
  unfold refreshed. destruct (to_uint (tm_sec w) mod 2 =? 0).
  - cbn. rewrite store_commodities_fields. cbn. repeat split.
  - repeat split.
Qed.

Lemma after_tick_store (w : World) (s : EWH) :
  der (after_tick w s) = der (refreshed w s).
Proof. unfold after_tick. destruct (log_due w s); reflexivity. Qed.

Lemma after_tick_heartbeat (w : World) (s : EWH) :
  heartbeat_ (after_tick w s) = heartbeat_ s.
Proof.
  unfold after_tick. destruct (log_due w s); cbn; apply (refreshed_frame w s).
Qed.

(** A whole tick: the periodic part, then whatever the arbitration sends
    from the refreshed store. *)
Lemma Loop_full (HEIGHTENED GRID CURTAILED : Z) (w : World) (s : EWH) :
  heartbeat_ s <> 0 ->
  exists out1 out2,
    Loop_schedule w s = (out1, inr (tt, after_tick w s)) /\
    Loop_arbitration HEIGHTENED GRID CURTAILED w (after_tick w s)
    = (out2, inr (tt, after_tick w s)) /\
    Loop HEIGHTENED GRID CURTAILED w s = (out1 ++ out2, inr (tt, after_tick w s)) /\
    commands out1
    = (if to_uint (tm_sec w) mod 2 =? 0
       then [intermediateGetCommodity; basicQueryOperationalState] else []) ++
      (if heartbeat_due w s then [basicOutsideCommConnectionStatus_Found] else []) /\
    telemetry out1
    = (if log_due w s then [telemetry_record w (refreshed w s)] else []) /\
    (out2 = [] \/ out2 = [Cmd (basicLoadUp 0)] \/ out2 = [Cmd (basicShed 0)]).
Proof.
  intros Hhb.
  destruct (arbitration_at_most_one HEIGHTENED GRID CURTAILED w (after_tick w s))
    as (out2 & Ha & Hout2).
  eexists _, out2. split; [exact (Loop_schedule_run w s Hhb)|].
  split; [exact Ha|].
  split; [exact (Loop_run _ _ _ _ _ _ _ _ _ (Loop_schedule_run w s Hhb) Ha)|].
  split; [|split; [|exact Hout2]].
  - destruct (to_uint (tm_sec w) mod 2 =? 0), (heartbeat_due w s), (log_due w s);
      reflexivity.
  - destruct (to_uint (tm_sec w) mod 2 =? 0), (heartbeat_due w s), (log_due w s);
      reflexivity.
Qed.

Lemma to_uint_range (z : Z) : 0 <= to_uint z < 2 ^ 32.
Proof. unfold to_uint. apply Z.mod_pos_bound. reflexivity. Qed.

Lemma heartbeat_due_iff (w : World) (s : EWH) :
  heartbeat_due w s = true <->
  to_uint (tm_min w) mod heartbeat_ s = 0 /\ to_uint (tm_sec w) = 0.
Proof.
  unfold heartbeat_due. pose proof (to_uint_range (tm_sec w)) as Hr.
  rewrite andb_true_iff, Z.eqb_eq, Z.ltb_lt. split; intros [H1 H2]; split; auto; lia.
Qed.

Lemma commands_app (o1 o2 : list Event) :
  commands (o1 ++ o2) = commands o1 ++ commands o2.
Proof.
  induction o1 as [|e o1 IH]; [reflexivity|].
  destruct e; simpl; rewrite IH; reflexivity.
Qed.

Lemma sent_app (p : Command -> bool) (o1 o2 : list Event) :
  sent p (o1 ++ o2) = (sent p o1 + sent p o2)%nat.
Proof.
  unfold sent. rewrite commands_app, List.filter_app, List.length_app. reflexivity.
Qed.

Lemma for_each_cons {A} (x : A) (xs : list A) (body : A -> M unit) s out1 s1 out2 r :
  body x s = (out1, inr (tt, s1)) ->
  for_each xs body s1 = (out2, r) ->
  for_each (x :: xs) body s = (out1 ++ out2, r).
Proof. intros H1 H2. cbn [for_each]. exact (bind_returns _ _ _ _ _ _ _ _ H1 H2). Qed.

(** ** The periodic actions *)

(** X10.  A tick with a non-zero heart beat returns.  It sends the two
    refresh queries exactly when the sampled second is even, and the
    connection status exactly when the second is 0 and the minute is a
    multiple of the heart beat. *)
Theorem tick_periodic_commands (HEIGHTENED GRID CURTAILED : Z) (w : World) (s : EWH) :
  heartbeat_ s <> 0 ->
  exists out s',
    Loop HEIGHTENED GRID CURTAILED w s = (out, inr (tt, s')) /\
    (In intermediateGetCommodity (commands out) <-> to_uint (tm_sec w) mod 2 = 0) /\
    (In basicQueryOperationalState (commands out) <-> to_uint (tm_sec w) mod 2 = 0) /\
    (In basicOutsideCommConnectionStatus_Found (commands out) <->
     to_uint (tm_min w) mod heartbeat_ s = 0 /\ to_uint (tm_sec w) = 0).
Proof.
  intros Hhb.
  destruct (Loop_full HEIGHTENED GRID CURTAILED w s Hhb)
    as (out1 & out2 & _ & _ & Hrun & Hc & _ & Hout2).
  exists (out1 ++ out2), (after_tick w s). split; [exact Hrun|].
  rewrite commands_app, Hc, <- heartbeat_due_iff, <- (Z.eqb_eq (_ mod 2) 0).
  assert (H2 : commands out2 = [] \/ commands out2 = [basicLoadUp 0]
               \/ commands out2 = [basicShed 0]).
  { destruct Hout2 as [->|[->| ->]]; auto. }
  destruct (to_uint (tm_sec w) mod 2 =? 0), (heartbeat_due w s);
    destruct H2 as [->|[->| ->]]; cbn;
    repeat split; intros H; try reflexivity; try discriminate H; auto;
    repeat (destruct H as [H|H]; try discriminate H); try contradiction.
Qed.

(** X11.  The connection status has no once-per-minute guard: over any run
    of ticks it is sent once for every tick sampled at second 0 of a minute
    that is a multiple of the heart beat, repeated ticks in that second
    included. *)
Theorem connection_status_every_due_tick (HEIGHTENED GRID CURTAILED : Z)
  (ws : list World) (s : EWH) :
  heartbeat_ s <> 0 ->
  exists out s',
    ticks HEIGHTENED GRID CURTAILED ws s = (out, inr (tt, s')) /\
    sent is_connection_status out
    = length (List.filter (fun w => heartbeat_due w s) ws).
Proof.
  intros Hhb.
  assert (Haux : forall s1, heartbeat_ s1 = heartbeat_ s ->
            exists out s',
              ticks HEIGHTENED GRID CURTAILED ws s1 = (out, inr (tt, s')) /\
              sent is_connection_status out
              = length (List.filter (fun w => heartbeat_due w s) ws)).
  { induction ws as [|w ws IH]; intros s1 Hs1.
    - exists [], s1. split; reflexivity.
    - destruct (Loop_full HEIGHTENED GRID CURTAILED w s1 ltac:(congruence))
        as (out1 & out2 & _ & _ & Hrun & Hc & _ & Hout2).
      destruct (IH (after_tick w s1)) as (o & s' & Hr & Hn).
      { rewrite after_tick_heartbeat. exact Hs1. }
      exists ((out1 ++ out2) ++ o), s'.
      split; [exact (for_each_cons _ _ _ _ _ _ _ _ Hrun Hr)|].
      rewrite !sent_app, Hn. cbn [List.filter].
      assert (Hd : heartbeat_due w s = heartbeat_due w s1).
      { unfold heartbeat_due. rewrite Hs1. reflexivity. }
      rewrite Hd. unfold sent at 1 2. rewrite Hc.
      assert (H2 : List.filter is_connection_status (commands out2) = []).
      { destruct Hout2 as [->|[->| ->]]; reflexivity. }
      rewrite H2.
      destruct (to_uint (tm_sec w) mod 2 =? 0), (heartbeat_due w s1); reflexivity. }
  apply Haux. reflexivity.
Qed.

(** ** Telemetry *)

(** X12.  Any run of ticks that are all sampled in one minute [m] writes at
    most one telemetry record, and none when [m] is already the last logged
    minute. *)
Theorem same_minute_at_most_one_record (HEIGHTENED GRID CURTAILED : Z)
  (ws : list World) (s : EWH) (m : Z) :
  heartbeat_ s <> 0 ->
  Forall (fun w => to_uint (tm_min w) = m) ws ->
  exists out s',
    ticks HEIGHTENED GRID CURTAILED ws s = (out, inr (tt, s')) /\
    (length (telemetry out) <= 1)%nat /\
    (log_minute_ s = m -> telemetry out = []).
Proof.
  intros Hhb Hall.
  assert (Haux : forall s1, heartbeat_ s1 <> 0 ->
            exists out s',
              ticks HEIGHTENED GRID CURTAILED ws s1 = (out, inr (tt, s')) /\
              ((telemetry out = [] /\ log_minute_ s' = log_minute_ s1) \/
               (length (telemetry out) = 1%nat /\ log_minute_ s' = m /\
                log_minute_ s1 <> m))).
  { induction Hall as [|w ws Hw Hall IH]; intros s1 Hs1.
    - exists [], s1. split; [reflexivity|]. left. split; reflexivity.
    - destruct (Loop_tick HEIGHTENED GRID CURTAILED w s1 Hs1)
        as (o1 & s2 & Hrun & Hb & _ & _ & Hlog).
      destruct (IH s2 ltac:(congruence)) as (o2 & s' & Hr & Hcases).
      exists (o1 ++ o2), s'.
      split; [exact (for_each_cons _ _ _ _ _ _ _ _ Hrun Hr)|].
      rewrite telemetry_app. unfold log_due in Hlog. rewrite Hw in Hlog.
      destruct (to_uint (tm_sec w) =? 0); cbn [andb] in Hlog.
      + destruct (Z.eqb_spec (log_minute_ s1) m) as [E|E]; cbn [negb] in Hlog.
        * destruct Hlog as [-> Hm]. cbn [app].
          destruct Hcases as [[Ht Hm']|(Ht & Hm' & Hne)];
            [left; split; congruence | right; repeat split; congruence].
        * destruct Hlog as [Hlen Hm]. right.
          destruct Hcases as [[-> Hm']|(_ & _ & Hne)]; [|congruence].
          rewrite app_nil_r. repeat split; congruence.
      + destruct Hlog as [-> Hm]. cbn [app].
        destruct Hcases as [[Ht Hm']|(Ht & Hm' & Hne)];
          [left; split; congruence | right; repeat split; congruence]. }
  destruct (Haux s Hhb) as (out & s' & Hr & Hcases).
  exists out, s'. split; [exact Hr|].
  destruct Hcases as [[-> _]|(Hlen & _ & Hne)].
  - split; [cbn; lia | reflexivity].
  - split; [lia | intros E; contradiction].
Qed.

(** X13.  A run of ticks none of which is sampled at second 0 writes no
    telemetry record and leaves the last logged minute and [last_utc_] as
    they were, however many minutes go by. *)
Theorem no_record_off_second_zero (HEIGHTENED GRID CURTAILED : Z)
  (ws : list World) (s : EWH) :
  heartbeat_ s <> 0 ->
  Forall (fun w => to_uint (tm_sec w) <> 0) ws ->
  exists out s',
    ticks HEIGHTENED GRID CURTAILED ws s = (out, inr (tt, s')) /\
    telemetry out = [] /\
    log_minute_ s' = log_minute_ s /\
    last_utc_ s' = last_utc_ s.
Proof.
  intros Hhb Hall. revert s Hhb.
  induction Hall as [|w ws Hw Hall IH]; intros s Hhb.
  - exists [], s. repeat split.
  - destruct (Loop_full HEIGHTENED GRID CURTAILED w s Hhb)
      as (out1 & out2 & _ & _ & Hrun & _ & Ht & Hout2).
    assert (Hdue : log_due w s = false).
    { unfold log_due. apply Z.eqb_neq in Hw. rewrite Hw. reflexivity. }
    assert (Hafter : after_tick w s = refreshed w s).
    { unfold after_tick. rewrite Hdue. reflexivity. }
    rewrite Hdue in Ht. rewrite Hafter in Hrun.
    destruct (refreshed_frame w s)
      as (_ & _ & _ & _ & _ & _ & _ & _ & _ & _ & _ & Hb & _ & _ & Hm & Hu).
    destruct (IH (refreshed w s) ltac:(congruence)) as (o & s' & Hr & Ht' & Hm' & Hu').
    exists ((out1 ++ out2) ++ o), s'.
    split; [exact (for_each_cons _ _ _ _ _ _ _ _ Hrun Hr)|].
    rewrite !telemetry_app, Ht, Ht'.
    assert (H2 : telemetry out2 = []) by (destruct Hout2 as [->|[->| ->]]; reflexivity).
    rewrite H2. repeat split; congruence.
Qed.

(** X14.  A tick that logs does so after its refresh: the record it writes
    has nine fields, carries as import power the rate of the last code-0
    reading of this very tick, the untouched import setpoint and the
    reported operational state; the tick records the minute and the
    truncated clock. *)
Theorem telemetry_carries_fresh_reading (HEIGHTENED GRID CURTAILED : Z) (w : World)
  (s : EWH) (pre post : list CommodityData) (c : CommodityData) :
  heartbeat_ s <> 0 ->
  log_due w s = true ->
  GetCommodityData (ucm_ w) = pre ++ c :: post ->
  code c = 0 ->
  (forall c', In c' post -> code c' <> 0) ->
  exists out s' record,
    Loop HEIGHTENED GRID CURTAILED w s = (out, inr (tt, s')) /\
    telemetry out = [record] /\
    length record = 9%nat /\
    nth 3 record 0 = import_watts_ (der s) /\
    nth 4 record 0 = rate c /\
    nth 8 record 0 = GetOpState (ucm_ w) /\
    log_minute_ s' = to_uint (tm_min w) /\
    last_utc_ s' = to_uint (time0 w).
Proof.
  intros Hhb Hdue Hcs Hc Hpost.
  destruct (Loop_full HEIGHTENED GRID CURTAILED w s Hhb)
    as (out1 & out2 & _ & _ & Hrun & _ & Ht & Hout2).
  exists (out1 ++ out2), (after_tick w s), (telemetry_record w (refreshed w s)).
  split; [exact Hrun|].
  assert (H2 : telemetry out2 = []) by (destruct Hout2 as [->|[->| ->]]; reflexivity).
  rewrite telemetry_app, Ht, H2, Hdue.
  assert (Heven : (to_uint (tm_sec w) mod 2 =? 0) = true).
  { unfold log_due in Hdue. apply andb_true_iff in Hdue. destruct Hdue as [H0 _].
    apply Z.eqb_eq in H0. rewrite H0. reflexivity. }
  unfold after_tick. rewrite Hdue. unfold refreshed. rewrite Heven.
  cbn. rewrite store_commodities_fields, Hcs. cbn.
  repeat split. apply latest_last; assumption.
Qed.

(** ** Refresh and arbitration in one tick *)

(** X15.  On an even second the arbitration decides on the reading of this
    very tick, whatever commanded import the store held before: with a
    zero setpoint and a last code-0 reading above zero the tick sends
    exactly one shed and no load-up, and leaves that rate as commanded
    import. *)
Theorem fresh_reading_drives_shed (HEIGHTENED GRID CURTAILED : Z) (w : World)
  (s : EWH) (pre post : list CommodityData) (c : CommodityData) :
  heartbeat_ s <> 0 ->
  GRID <> CURTAILED ->
  to_uint (tm_sec w) mod 2 = 0 ->
  GetCommodityData (ucm_ w) = pre ++ c :: post ->
  code c = 0 ->
  (forall c', In c' post -> code c' <> 0) ->
  0 < rate c ->
  import_setpoint_watts s = 0 ->
  exists out s',
    Loop HEIGHTENED GRID CURTAILED w s = (out, inr (tt, s')) /\
    sent is_shed out = 1%nat /\
    sent is_load_up out = 0%nat /\
    import_commanded_watts s' = rate c.
Proof.
  intros Hhb Hne Heven Hcs Hc Hpost Hrate Hset.
  destruct (Loop_full HEIGHTENED GRID CURTAILED w s Hhb)
    as (out1 & out2 & _ & Ha & Hrun & Hcmd & _ & _).
  assert (Hder : der (after_tick w s)
                 = store_commodities (GetCommodityData (ucm_ w)) (der s)).
  { rewrite after_tick_store. unfold refreshed.
    rewrite (proj2 (Z.eqb_eq _ _) Heven). reflexivity. }
  assert (Hp : import_commanded_watts (after_tick w s) = rate c).
  { unfold import_commanded_watts. rewrite Hder, store_commodities_fields, Hcs. cbn.
    apply latest_last; assumption. }
  assert (Hw : import_setpoint_watts (after_tick w s) = 0).
  { unfold import_setpoint_watts. rewrite Hder, store_commodities_fields. exact Hset. }
  rewrite (arbitration_second_branch HEIGHTENED GRID CURTAILED w (after_tick w s))
    in Ha by (rewrite ?Hp; assumption).
  assert (Hguard : negb (GetOpState (ucm_ w) =? GRID)
                   || negb (GetOpState (ucm_ w) =? CURTAILED) = true).
  { destruct (Z.eqb_spec (GetOpState (ucm_ w)) GRID) as [->|_]; [|reflexivity].
    destruct (Z.eqb_spec GRID CURTAILED) as [E|_]; [contradiction|reflexivity]. }
  rewrite Hguard in Ha. injection Ha as <-.
  exists (out1 ++ [Cmd (basicShed 0)]), (after_tick w s).
  split; [exact Hrun|]. rewrite !sent_app. unfold sent at 1 3. rewrite Hcmd.
  split; [|split; [|exact Hp]];
    destruct (to_uint (tm_sec w) mod 2 =? 0), (heartbeat_due w s); reflexivity.
Qed.

(** X16.  On an odd second the tick does not look at the commodity
    readings at all: with any other readings in the UCM object it sends the
    same events and ends in the same state. *)
Theorem odd_second_tick_ignores_readings (HEIGHTENED GRID CURTAILED : Z) (w : World)
  (s : EWH) (cs : list CommodityData) :
  to_uint (tm_sec w) mod 2 <> 0 ->
  Loop HEIGHTENED GRID CURTAILED (with_readings cs w) s
  = Loop HEIGHTENED GRID CURTAILED w s.
Proof.
  intros Hodd. apply Z.eqb_neq in Hodd.
  unfold Loop, Loop_schedule, Loop_arbitration. cbn [tm_sec tm_min with_readings].
  rewrite Hodd. reflexivity.
Qed.


(** ** Sequences of calls *)

Lemma refreshed_settings (w : World) (s : EWH) :
  settings (refreshed w s) = settings s.
Proof.
  unfold settings.
  destruct (refreshed_frame w s)
    as (-> & -> & _ & -> & -> & -> & -> & -> & -> & -> & -> & -> & _).
  reflexivity.
Qed.

Lemma after_tick_settings (w : World) (s : EWH) :
  settings (after_tick w s) = settings s.
Proof.
  rewrite <- (refreshed_settings w s). unfold after_tick.
  destruct (log_due w s); reflexivity.
Qed.

Lemma call_settings (HEIGHTENED GRID CURTAILED : Z) (c : Call) (s s' : EWH)
  (out : list Event) :
  call HEIGHTENED GRID CURTAILED c s = (out, inr (tt, s')) ->
  settings s' = settings s.
Proof.
  destruct c; cbn [call]; intros Hrun;
    try (injection Hrun as <- <-; reflexivity).
  - rewrite QueryProperties_run in Hrun. injection Hrun as <- <-.
    unfold settings. cbn. rewrite store_commodities_fields. reflexivity.
  - pose proof (Loop_inv _ _ _ _ _ _ _ Hrun) as (Hhb & _).
    destruct (Loop_full HEIGHTENED GRID CURTAILED w s Hhb)
      as (o1 & o2 & _ & _ & Hr & _).
    rewrite Hr in Hrun. injection Hrun as _ <-. apply after_tick_settings.
Qed.

(** X18.  After construction no method writes the import setpoint, the
    export watts and power, the rated import power, the import ramp, the
    idle losses, the log path and increment, the port name, the transducer
    channel or the heart beat: every sequence of calls that returns leaves
    all of them as it found them. *)
Theorem calls_keep_settings (HEIGHTENED GRID CURTAILED : Z) (calls : list Call)
  (s s' : EWH) (out : list Event) :
  for_each calls (call HEIGHTENED GRID CURTAILED) s = (out, inr (tt, s')) ->
  import_watts_ (der s') = import_watts_ (der s) /\
  export_watts_ (der s') = export_watts_ (der s) /\
  export_power_ (der s') = export_power_ (der s) /\
  rated_import_power_ (der s') = rated_import_power_ (der s) /\
  import_ramp_ (der s') = import_ramp_ (der s) /\
  idle_losses_ (der s') = idle_losses_ (der s) /\
  log_path_ (der s') = log_path_ (der s) /\
  log_inc_ (der s') = log_inc_ (der s) /\
  sp_ s' = sp_ s /\
  current_transducer_1_ s' = current_transducer_1_ s /\
  heartbeat_ s' = heartbeat_ s.
Proof.
  intros Hrun.
  assert (Hs : settings s' = settings s).
  { revert s out Hrun. induction calls as [|c calls IH]; intros s out Hrun.
    - injection Hrun as _ <-. reflexivity.
    - cbn [for_each] in Hrun. apply bind_inv in Hrun.
      destruct Hrun as (o1 & [] & s1 & o2 & Hc & Hrest & _).
      rewrite (IH s1 o2 Hrest). exact (call_settings _ _ _ _ _ _ _ Hc). }
  unfold settings in Hs. injection Hs as -> -> -> -> -> -> -> -> -> -> ->.
  repeat split.
Qed.

Lemma call_returns (HEIGHTENED GRID CURTAILED : Z) (c : Call) (s : EWH) :
  heartbeat_ s <> 0 \/ is_tick c = false ->
  exists out s',
    call HEIGHTENED GRID CURTAILED c s = (out, inr (tt, s')) /\
    heartbeat_ s' = heartbeat_ s.
Proof.
  intros Hok. destruct c; cbn [call];
    try (eexists _, _; split; reflexivity).
  - rewrite QueryProperties_run. eexists _, _. split; reflexivity.
  - destruct Hok as [Hhb|Hno]; [|discriminate Hno].
    destruct (Loop_tick HEIGHTENED GRID CURTAILED w s Hhb) as (o & s' & Hr & Hb & _).
    exists o, s'. split; assumption.
Qed.

(** X19.  A sequence of calls returns exactly when the heart beat is not
    zero or the sequence contains no tick: the division of line 146 is the
    only thing that can stop a constructed controller. *)
Theorem calls_return_iff (HEIGHTENED GRID CURTAILED : Z) (calls : list Call) (s : EWH) :
  (exists out s',
     for_each calls (call HEIGHTENED GRID CURTAILED) s = (out, inr (tt, s'))) <->
  (heartbeat_ s <> 0 \/ forallb (fun c => negb (is_tick c)) calls = true).
Proof.
  split.
  - intros (out & s' & Hrun).
    destruct (Z.eq_dec (heartbeat_ s) 0) as [Hz|Hnz]; [right|left; exact Hnz].
    revert s out Hrun Hz. induction calls as [|c calls IH]; intros s out Hrun Hz.
    + reflexivity.
    + cbn [for_each] in Hrun. apply bind_inv in Hrun.
      destruct Hrun as (o1 & [] & s1 & o2 & Hc & Hrest & _).
      cbn [forallb]. apply andb_true_iff. split.
      * destruct c; try reflexivity. cbn [call] in Hc.
        apply Loop_inv in Hc. destruct Hc as [Hnz _]. contradiction.
      * apply (IH s1 o2 Hrest).
        pose proof (call_settings _ _ _ _ _ _ _ Hc) as Hs.
        unfold settings in Hs. injection Hs as _ _ _ _ _ _ _ _ _ _ Hb. congruence.
  - revert s. induction calls as [|c calls IH]; intros s Hok.
    + exists [], s. reflexivity.
    + assert (Hc : heartbeat_ s <> 0 \/ is_tick c = false).
      { destruct Hok as [H|H]; [left; exact H|right].
        cbn [forallb] in H. apply andb_true_iff in H. destruct H as [H _].
        destruct (is_tick c); [discriminate H | reflexivity]. }
      destruct (call_returns HEIGHTENED GRID CURTAILED c s Hc) as (o1 & s1 & Hr & Hb).
      destruct (IH s1) as (o2 & s' & Hr2).
      { destruct Hok as [H|H]; [left; congruence|right].
        cbn [forallb] in H. apply andb_true_iff in H. tauto. }
      exists (o1 ++ o2), s'. exact (for_each_cons _ _ _ _ _ _ _ _ Hr Hr2).
Qed.

(** ** DR events one after the other *)

Lemma last_cons_default {A} (l : list A) (x d : A) :
  List.last (x :: l) d = List.last l x.
Proof.
  revert x d. induction l as [|y l IH]; intros x d; [reflexivity|].
  change (List.last (y :: l) d = List.last (y :: l) x). rewrite !IH. reflexivity.
Qed.

(** X9.  Any sequence of DR events is accepted: the handlers send one
    command of duration zero per event, in the order of the events, the
    local state ends as the code of the last event (unchanged when there is
    none), and the property store and the last logged minute are not
    touched. *)
Theorem events_overwrite_local_state (es : list DREvent) (s : EWH) :
  exists out s',
    for_each es handle s = (out, inr (tt, s')) /\
    commands out = map command_of es /\
    opstate_ s' = List.last (map opstate_of es) (opstate_ s) /\
    der s' = der s /\
    log_minute_ s' = log_minute_ s.
Proof.
  revert s. induction es as [|e es IH]; intros s.
  - exists [], s. repeat split.
  - assert (He : exists o1,
               handle e s = (o1, inr (tt, set_opstate (opstate_of e) s)) /\
               commands o1 = [command_of e]).
    { destruct e; eexists; split; reflexivity. }
    destruct He as (o1 & Hr & Hc).
    destruct (IH (set_opstate (opstate_of e) s)) as (o2 & s' & Hr2 & Hc2 & Ho & Hd & Hm).
    exists (o1 ++ o2), s'.
    split; [exact (for_each_cons _ _ _ _ _ _ _ _ Hr Hr2)|].
    rewrite commands_app, Hc, Hc2. split; [reflexivity|].
    split; [|split; [exact Hd | exact Hm]].
    rewrite Ho. cbn [map]. rewrite last_cons_default. reflexivity.
Qed.

(** ** More on the property refresh *)

Lemma store_commodities_filter (cs : list CommodityData) (d : DistributedEnergyResource) :
  store_commodities (List.filter code_is_read cs) d = store_commodities cs d.
Proof.
  revert d. induction cs as [|c cs IH]; intros d; [reflexivity|].
  cbn [List.filter store_commodities]. destruct (code_is_read c) eqn:E.
  - cbn [store_commodities]. apply IH.
  - rewrite IH. f_equal. unfold code_is_read in E. unfold store_commodity.
    apply orb_false_iff in E. destruct E as [E E7].
    apply orb_false_iff in E. destruct E as [E0 E6].
    rewrite E0, E6, E7. reflexivity.
Qed.

(** X7.  Readings with a code other than 0, 6 and 7 do not matter to a
    refresh: dropping them from the sequence changes neither what is sent
    nor the resulting state; and a sequence without any reading of those
    three codes, the empty one included, leaves the object exactly as it
    was. *)
Theorem refresh_ignores_other_codes (w : World) (s : EWH) :
  QueryProperties
    (with_readings (List.filter code_is_read (GetCommodityData (ucm_ w))) w) s
  = QueryProperties w s /\
  (List.filter code_is_read (GetCommodityData (ucm_ w)) = [] ->
   QueryProperties w s
   = ([Cmd intermediateGetCommodity; Cmd basicQueryOperationalState], inr (tt, s))).
Proof.
  rewrite !QueryProperties_run. cbn [with_readings ucm_ GetCommodityData].
  split.
  - destruct s as [d ? ? ? ? ? ? ?]. unfold with_der. cbn.
    rewrite store_commodities_filter. reflexivity.
  - intros Hnone. destruct s as [d ? ? ? ? ? ? ?]. unfold with_der. cbn.
    rewrite <- store_commodities_filter, Hnone. reflexivity.
Qed.

(** X8.  A refresh stores the cumulative field of the last reading with
    code 6 as rated import energy, and that of the last reading with code 7
    as import energy. *)
Theorem cumulative_of_last_reading (w : World) (s : EWH)
  (pre post : list CommodityData) (c : CommodityData) :
  GetCommodityData (ucm_ w) = pre ++ c :: post ->
  code c = 6 \/ code c = 7 ->
  (forall c', In c' post -> code c' <> code c) ->
  exists out s',
    QueryProperties w s = (out, inr (tt, s')) /\
    (code c = 6 -> rated_import_energy_ (der s') = cumulative c) /\
    (code c = 7 -> import_energy_ (der s') = cumulative c).
Proof.
  intros Hcs Hc Hpost. rewrite QueryProperties_run. eexists _, _.
  split; [reflexivity|]. unfold with_der. cbn.
  rewrite store_commodities_fields, Hcs. cbn.
  split; intros E; apply latest_last; try exact E;
    intros c' Hin; rewrite <- E; apply Hpost; exact Hin.
Qed.

(** ** Construction: the ways it ends *)

(** X1.  The constructor returns exactly when the serial port opens and
    each of the four numeric settings converts. *)
Theorem construction_returns_iff (stoul : string -> option Z)
  (configs : gmap string string) (open_ok : bool) (w : World) (s0 : EWH) :
  (exists out s',
     ElectricWaterHeater stoul configs open_ok w s0 = (out, inr (tt, s'))) <->
  (open_ok = true /\
   Forall (fun k => stoul (at_key configs k) <> None) numeric_keys).
Proof.
  split.
  - intros (out & s' & Hrun).
    destruct (ElectricWaterHeater_inv _ _ _ _ _ _ _ Hrun)
      as (Hopen & channel & hb & inc & ramp & Hc & Hh & Hi & Hr).
    split; [exact Hopen|]. unfold numeric_keys.
    repeat constructor; congruence.
  - intros [-> Hall]. unfold numeric_keys in Hall.
    inversion_clear Hall as [|? ? Hc Hall1].
    inversion_clear Hall1 as [|? ? Hh Hall2].
    inversion_clear Hall2 as [|? ? Hi Hall3].
    inversion_clear Hall3 as [|? ? Hr _].
    destruct (stoul (at_key configs "mcp_channel")) as [channel|] eqn:Ec; [|contradiction].
    destruct (stoul (at_key configs "ucm_heartbeat")) as [hb|] eqn:Eh; [|contradiction].
    destruct (stoul (at_key configs "log_inc")) as [inc|] eqn:Ei; [|contradiction].
    destruct (stoul (at_key configs "EWH_rated_import_ramp")) as [ramp|] eqn:Er;
      [|contradiction].
    eexists _, _. exact (ElectricWaterHeater_run _ _ _ _ _ _ _ _ Ec Eh Ei Er).
Qed.

Section ConstructionFails.

Variable stoul : string -> option Z.
Variable configs : gmap string string.
Variable w : World.
Variable s0 : EWH.

Lemma ElectricWaterHeater_throws_channel (open_ok : bool) :
  stoul (at_key configs "mcp_channel") = None ->
  ElectricWaterHeater stoul configs open_ok w s0 = ([], inl (Throw "stoul")).
Proof.
  intros Hc. unfold ElectricWaterHeater, bind, stoul_or_throw. rewrite Hc. reflexivity.
Qed.

Lemma ElectricWaterHeater_throws_heartbeat (open_ok : bool) (channel : Z) :
  stoul (at_key configs "mcp_channel") = Some channel ->
  stoul (at_key configs "ucm_heartbeat") = None ->
  ElectricWaterHeater stoul configs open_ok w s0 = ([], inl (Throw "stoul")).
Proof.
  intros Hc Hh. unfold ElectricWaterHeater, bind, stoul_or_throw.
  rewrite Hc, Hh. reflexivity.
Qed.

Lemma ElectricWaterHeater_throws_log_inc (channel hb : Z) :
  stoul (at_key configs "mcp_channel") = Some channel ->
  stoul (at_key configs "ucm_heartbeat") = Some hb ->
  stoul (at_key configs "log_inc") = None ->
  ElectricWaterHeater stoul configs true w s0
  = (handshake_out configs, inl (Throw "stoul")).
Proof.
  intros Hc Hh Hi. unfold ElectricWaterHeater, bind, stoul_or_throw.
  rewrite Hc, Hh, Hi. reflexivity.
Qed.

Lemma ElectricWaterHeater_throws_ramp (channel hb inc : Z) :
  stoul (at_key configs "mcp_channel") = Some channel ->
  stoul (at_key configs "ucm_heartbeat") = Some hb ->
  stoul (at_key configs "log_inc") = Some inc ->
  stoul (at_key configs "EWH_rated_import_ramp") = None ->
  ElectricWaterHeater stoul configs true w s0
  = (startup_out configs, inl (Throw "stoul")).
Proof.
  intros Hc Hh Hi Hr. unfold ElectricWaterHeater, bind, stoul_or_throw.
  rewrite Hc, Hh, Hi, Hr. reflexivity.
Qed.

End ConstructionFails.

(** X2.  The constructor ends in [exit (1)] exactly when the port fails to
    open after the transducer channel and the heart beat have converted;
    it has then written the one error line and sent nothing to the device,
    whatever the other settings are. *)
Theorem construction_exits_iff (stoul : string -> option Z)
  (configs : gmap string string) (open_ok : bool) (w : World) (s0 : EWH) :
  ((exists out status,
      ElectricWaterHeater stoul configs open_ok w s0 = (out, inl (Exit status))) <->
   (open_ok = false /\
    stoul (at_key configs "mcp_channel") <> None /\
    stoul (at_key configs "ucm_heartbeat") <> None)) /\
  (forall out status,
     ElectricWaterHeater stoul configs open_ok w s0 = (out, inl (Exit status)) ->
     status = 1 /\
     out = [Logged "ERROR" (log_path_ (der s0))
              (String.append "failed to open serial port: " (strerror_errno w))]).
Proof.
  destruct (stoul (at_key configs "mcp_channel")) as [channel|] eqn:Ec.
  2:{ rewrite (ElectricWaterHeater_throws_channel _ _ w s0 open_ok Ec).
      split; [split|].
      - intros (? & ? & H). discriminate H.
      - intros (_ & H & _). contradiction.
      - intros ? ? H. discriminate H. }
  destruct (stoul (at_key configs "ucm_heartbeat")) as [hb|] eqn:Eh.
  2:{ rewrite (ElectricWaterHeater_throws_heartbeat _ _ w s0 open_ok _ Ec Eh).
      split; [split|].
      - intros (? & ? & H). discriminate H.
      - intros (_ & _ & H). contradiction.
      - intros ? ? H. discriminate H. }
  destruct open_ok.
  - assert (Hno : forall out status,
               ElectricWaterHeater stoul configs true w s0 <> (out, inl (Exit status))).
    { intros out status.
      destruct (stoul (at_key configs "log_inc")) as [inc|] eqn:Ei.
      2:{ rewrite (ElectricWaterHeater_throws_log_inc _ _ w s0 _ _ Ec Eh Ei).
          discriminate. }
      destruct (stoul (at_key configs "EWH_rated_import_ramp")) as [ramp|] eqn:Er.
      2:{ rewrite (ElectricWaterHeater_throws_ramp _ _ w s0 _ _ _ Ec Eh Ei Er).
          discriminate. }
      rewrite (ElectricWaterHeater_run _ _ w s0 _ _ _ _ Ec Eh Ei Er). discriminate. }
    split; [split|].
    + intros (out & status & H). destruct (Hno out status H).
    + intros (H & _). discriminate H.
    + intros out status H. destruct (Hno out status H).
  - rewrite (ElectricWaterHeater_exits _ _ w s0 _ _ Ec Eh).
    split; [split|].
    + intros _. repeat split; discriminate.
    + intros _. eexists _, _. reflexivity.
    + intros out status H. injection H as <- <-. split; reflexivity.
Qed.

(** X3.  With a [stoul] that rejects the empty string, as std::stoul does,
    a configuration that lacks any one of the four numeric settings makes
    the constructor stop: it never returns an object. *)
Theorem missing_numeric_setting_stops_construction (stoul : string -> option Z)
  (configs : gmap string string) (open_ok : bool) (w : World) (s0 : EWH) (k : string) :
  stoul "" = None ->
  In k numeric_keys ->
  configs !! k = None ->
  exists out e, ElectricWaterHeater stoul configs open_ok w s0 = (out, inl e).
Proof.
  intros Hempty Hk Hmiss.
  assert (Hnone : stoul (at_key configs k) = None).
  { unfold at_key. rewrite Hmiss. exact Hempty. }
  destruct (ElectricWaterHeater stoul configs open_ok w s0) as [out [e|[[] s']]] eqn:Hrun.
  - exists out, e. reflexivity.
  - exfalso.
    destruct (ElectricWaterHeater_inv _ _ _ _ _ _ _ Hrun)
      as (_ & channel & hb & inc & ramp & Hc & Hh & Hi & Hr).
    unfold numeric_keys in Hk.
    destruct Hk as [<-|[<-|[<-|[<-|[]]]]]; congruence.
Qed.

(** X4.  With the port open, a log increment or import ramp that does not
    convert makes the constructor throw only after it has started the
    device, announced the connection and run the whole handshake; when it
    is the import ramp that fails, "startup complete" is already in the
    log. *)
Theorem late_conversion_failure_follows_handshake (stoul : string -> option Z)
  (configs : gmap string string) (w : World) (s0 : EWH) (channel hb : Z) :
  stoul (at_key configs "mcp_channel") = Some channel ->
  stoul (at_key configs "ucm_heartbeat") = Some hb ->
  stoul (at_key configs "log_inc") = None \/
  stoul (at_key configs "EWH_rated_import_ramp") = None ->
  exists out,
    ElectricWaterHeater stoul configs true w s0 = (out, inl (Throw "stoul")) /\
    commands out
    = [start; basicOutsideCommConnectionStatus_Found; querySuportDataLinkMessages;
       queryMaxPayload; querySuportIntermediateMessages;
       intermediateGetDeviceInformation] /\
    (stoul (at_key configs "log_inc") <> None ->
     In (Logged "INFO" (at_key configs "log_path") "startup complete") out).
Proof.
  intros Hc Hh Hfail.
  destruct (stoul (at_key configs "log_inc")) as [inc|] eqn:Ei.
  - destruct Hfail as [Hi|Hr]; [discriminate Hi|].
    exists (startup_out configs).
    split; [exact (ElectricWaterHeater_throws_ramp _ _ w s0 _ _ _ Hc Hh Ei Hr)|].
    split; [reflexivity|].
    intros _. unfold startup_out. cbn. tauto.
  - exists (handshake_out configs).
    split; [exact (ElectricWaterHeater_throws_log_inc _ _ w s0 _ _ Hc Hh Ei)|].
    split; [reflexivity|]. intros H. contradiction.
Qed.

Lemma Loop_undefined (HEIGHTENED GRID CURTAILED : Z) (w : World) (s : EWH) :
  heartbeat_ s = 0 ->
  exists out,
    Loop HEIGHTENED GRID CURTAILED w s = (out, inl (Undefined "min % heartbeat_")).
Proof.
  intros Hz. destruct (Loop_schedule_undefined w s Hz) as [out Hu].
  exists out. unfold Loop. exact (bind_aborts _ _ _ _ _ Hu).
Qed.

(** X5.  The constructor stores the configured heart beat unchecked: with a
    heart beat that converts to 0 it returns an object, on which every tick
    then runs into the division by zero of line 146. *)
Theorem zero_heartbeat_constructs_then_stops (stoul : string -> option Z)
  (HEIGHTENED GRID CURTAILED : Z) (configs : gmap string string) (w : World)
  (s0 : EWH) (channel inc ramp : Z) :
  stoul (at_key configs "mcp_channel") = Some channel ->
  stoul (at_key configs "ucm_heartbeat") = Some 0 ->
  stoul (at_key configs "log_inc") = Some inc ->
  stoul (at_key configs "EWH_rated_import_ramp") = Some ramp ->
  exists out s',
    ElectricWaterHeater stoul configs true w s0 = (out, inr (tt, s')) /\
    forall w' : World,
      exists out',
        Loop HEIGHTENED GRID CURTAILED w' s'
        = (out', inl (Undefined "min % heartbeat_")).
Proof.
  intros Hc Hh Hi Hr. eexists _, _.
  split; [exact (ElectricWaterHeater_run _ _ w s0 _ _ _ _ Hc Hh Hi Hr)|].
  intros w'. apply Loop_undefined. reflexivity.
Qed.


(** * The theorems at sample inputs *)

(** At second 0 of minute 10 the tick refreshes the store from a reading of
    500 W, announces the connection, logs, and then sheds although the
    device reports GRID. *)
Lemma shed_guard_never_blocks_witness :
  exists out1 s1,
    sample_GRID <> sample_CURTAILED /\
    Loop_schedule (sample_world 0 10 [reading_500] sample_GRID) idle
    = (out1, inr (tt, s1)) /\
    0 < import_commanded_watts s1 /\
    import_setpoint_watts s1 = 0 /\
    Loop sample_HEIGHTENED sample_GRID sample_CURTAILED
      (sample_world 0 10 [reading_500] sample_GRID) idle
    = (out1 ++ [Cmd (basicShed 0)], inr (tt, s1)).
Proof.
  eexists _, _.
  assert (Hne : sample_GRID <> sample_CURTAILED) by discriminate.
  assert (Hs : Loop_schedule (sample_world 0 10 [reading_500] sample_GRID) idle
               = (_, inr (tt, _))) by (vm_compute; reflexivity).
  split; [exact Hne|]. split; [exact Hs|].
  split; [reflexivity|]. split; [reflexivity|].
  exact (proj2 (proj2 (shed_guard_never_blocks sample_HEIGHTENED sample_GRID
                         sample_CURTAILED _ _ _ _ Hne Hs eq_refl eq_refl))).
Defined.

(** With the device reporting the NORMAL code the tick sends the load-up. *)
Lemma resume_import_gating_witness :
  exists out2,
    Loop sample_HEIGHTENED sample_GRID sample_CURTAILED
      (sample_world 1 7 [] sample_NORMAL) wanting_import
    = ([] ++ out2, inr (tt, wanting_import)) /\
    In (Cmd (basicLoadUp 0)) ([] ++ out2).
Proof.
  destruct (resume_import_gating sample_HEIGHTENED sample_GRID sample_CURTAILED
              (sample_world 1 7 [] sample_NORMAL) wanting_import wanting_import []
              eq_refl eq_refl eq_refl) as (out2 & Hrun & Hiff & _).
  exists out2. split; [exact Hrun|]. apply Hiff. discriminate.
Defined.

(** With both sides at 500 W the tick sends nothing at all. *)
Lemma arbitration_exclusive_witness :
  exists out2,
    Loop sample_HEIGHTENED sample_GRID sample_CURTAILED
      (sample_world 1 7 [] sample_NORMAL) agreeing
    = ([] ++ out2, inr (tt, agreeing)) /\
    out2 = [].
Proof.
  destruct (arbitration_exclusive sample_HEIGHTENED sample_GRID sample_CURTAILED
              (sample_world 1 7 [] sample_NORMAL) agreeing agreeing []
              eq_refl) as (out2 & Hrun & _ & _ & Hag).
  exists out2. split; [exact Hrun|]. apply Hag.
  right. split; discriminate.
Defined.

(** Of two readings with code 0, the later one ends up as commanded import,
    and the setpoint stays at zero. *)
Lemma code_zero_sets_commanded_watts_witness :
  exists out s',
    QueryProperties
      (sample_world 1 7 [mkCommodity 0 300 0; reading_500; mkCommodity 7 0 1234]
         sample_NORMAL)
      idle
    = (out, inr (tt, s')) /\
    import_commanded_watts s' = 500 /\
    import_setpoint_watts s' = 0.
Proof.
  apply (code_zero_sets_commanded_watts
           (sample_world 1 7 [mkCommodity 0 300 0; reading_500; mkCommodity 7 0 1234]
              sample_NORMAL)
           idle [mkCommodity 0 300 0] [mkCommodity 7 0 1234] reading_500).
  - reflexivity.
  - reflexivity.
  - intros c' [<-|[]]. discriminate.
Defined.

(** Construction from the sample configuration. *)
Lemma construction_initialises_properties_witness :
  exists out s_init s',
    ElectricWaterHeater stoul_dec sample_configs true
      (sample_world 1 7 [reading_500] sample_NORMAL) blank
    = (startup_out sample_configs ++ out, inr (tt, s')) /\
    QueryProperties (sample_world 1 7 [reading_500] sample_NORMAL) s_init
    = (out, inr (tt, s')) /\
    rated_import_power_ (der s_init) = 4500 /\
    export_energy_ (der s_init) = 0 /\
    import_ramp_ (der s_init) = 30 /\
    idle_losses_ (der s_init) = 100 /\
    rated_import_power_ (der s') = 4500 /\
    import_ramp_ (der s') = 30 /\
    idle_losses_ (der s') = 100.
Proof.
  apply (construction_initialises_properties stoul_dec sample_configs
           (sample_world 1 7 [reading_500] sample_NORMAL) blank 1 5 60 30);
    vm_compute; reflexivity.
Defined.

(** A handler, a tick, ExportPower and a refresh in a row, from a
    constructed controller. *)
Lemma export_energy_always_zero_witness :
  exists out s',
    for_each [CallSetLoadUp; CallLoop (sample_world 0 10 [reading_500] sample_GRID);
              CallExportPower;
              CallQueryProperties (sample_world 1 10 [] sample_GRID)]
      (call sample_HEIGHTENED sample_GRID sample_CURTAILED) idle
    = (out, inr (tt, s')) /\
    export_energy_ (der idle) = 0 /\
    export_energy_ (der s') = 0.
Proof.
  eexists _, _.
  assert (Hrun : for_each
                   [CallSetLoadUp;
                    CallLoop (sample_world 0 10 [reading_500] sample_GRID);
                    CallExportPower;
                    CallQueryProperties (sample_world 1 10 [] sample_GRID)]
                   (call sample_HEIGHTENED sample_GRID sample_CURTAILED) idle
                 = (_, inr (tt, _))) by (vm_compute; reflexivity).
  split; [exact Hrun|]. split; [reflexivity|].
  exact (proj2 (proj2 export_energy_always_zero) _ _ _ _ _ _ _ Hrun eq_refl).
Defined.

(** After SetCriticalPeak and EndCurtailment, two ticks leave the local
    state at 4. *)
Lemma EndCurtailment_and_ticks_keep_opstate_witness :
  heartbeat_ wanting_import <> 0 /\
  exists out s',
    ticks sample_HEIGHTENED sample_GRID sample_CURTAILED
      [sample_world 0 10 [] sample_NORMAL; sample_world 1 10 [] sample_NORMAL]
      wanting_import
    = (out, inr (tt, s')) /\
    opstate_ s' = 4.
Proof.
  assert (Hhb : heartbeat_ wanting_import <> 0) by discriminate.
  split; [exact Hhb|].
  exact (proj1 (proj2 (EndCurtailment_and_ticks_keep_opstate sample_HEIGHTENED
                         sample_GRID sample_CURTAILED
                         [sample_world 0 10 [] sample_NORMAL;
                          sample_world 1 10 [] sample_NORMAL]
                         wanting_import Hhb))).
Defined.

(** Five ticks at seconds 58, 59, 0, 0, 1 of minute 10, minute 9 having been
    the last one logged. *)
Lemma one_log_record_per_minute_witness :
  exists out s',
    ticks sample_HEIGHTENED sample_GRID sample_CURTAILED
      [sample_world 58 10 [] sample_NORMAL; sample_world 59 10 [] sample_NORMAL;
       sample_world 0 10 [] sample_NORMAL; sample_world 0 10 [] sample_NORMAL;
       sample_world 1 10 [] sample_NORMAL]
      agreeing
    = (out, inr (tt, s')) /\
    length (telemetry out) = 1%nat.
Proof.
  destruct (one_log_record_per_minute sample_HEIGHTENED sample_GRID sample_CURTAILED
              (sample_world 58 10 [] sample_NORMAL) (sample_world 59 10 [] sample_NORMAL)
              (sample_world 0 10 [] sample_NORMAL) (sample_world 0 10 [] sample_NORMAL)
              (sample_world 1 10 [] sample_NORMAL) agreeing 10)
    as (o1 & o2 & o3 & o4 & o5 & s1 & s2 & s3 & s4 & s5 & H).
  - discriminate.
  - lia.
  - discriminate.
  - reflexivity.
  - reflexivity.
  - destruct H as (_ & _ & _ & _ & _ & Ht & _ & _ & _ & _ & _ & _ & _ & Hlen).
    exists (o1 ++ o2 ++ o3 ++ o4 ++ o5), s5. split; [exact Ht | exact Hlen].
Defined.

(** * Where the code departs from a claim *)

(** C2 as stated does not hold.  A refresh from a reading of 500 W under
    code 0 leaves the import setpoint at zero and puts the 500 W into the
    commanded import; the tick that performs this refresh therefore takes
    the second branch of the arbitration and sheds, where a setpoint of
    500 W would have taken the first. *)
Lemma code_zero_leaves_setpoint_unwritten :
  exists out s',
    QueryProperties (sample_world 0 7 [reading_500] sample_NORMAL) idle
    = (out, inr (tt, s')) /\
    import_setpoint_watts s' = 0 /\
    import_setpoint_watts s' <> rate reading_500 /\
    import_commanded_watts s' = rate reading_500 /\
    commands (fst (Loop sample_HEIGHTENED sample_GRID sample_CURTAILED
                     (sample_world 0 7 [reading_500] sample_NORMAL) idle))
    = [intermediateGetCommodity; basicQueryOperationalState; basicShed 0].
Proof.
  eexists _, _. split; [vm_compute; reflexivity|].
  split; [reflexivity|]. split; [discriminate|]. split; reflexivity.
Qed.

(** C8 as stated does not hold in its second half.  After SetCriticalPeak
    and EndCurtailment, a tick whose arbitration decides to load up sends
    the load-up command and leaves the local operational state at 4, the
    code SetCriticalPeak wrote: the load/shed decision does not reset it. *)
Lemma load_decision_leaves_critical_peak :
  exists o1 s1 o2 s2 o3 s3,
    SetCriticalPeak (sample_ewh 500 0 0 9) = (o1, inr (tt, s1)) /\
    EndCurtailment s1 = (o2, inr (tt, s2)) /\
    Loop sample_HEIGHTENED sample_GRID sample_CURTAILED
      (sample_world 1 7 [] sample_NORMAL) s2
    = (o3, inr (tt, s3)) /\
    commands o3 = [basicLoadUp 0] /\
    opstate_ s1 = 4 /\ opstate_ s2 = 4 /\ opstate_ s3 = 4.
Proof.
  eexists _, _, _, _, _, _.
  split; [vm_compute; reflexivity|].
  split; [vm_compute; reflexivity|].
  split; [vm_compute; reflexivity|].
  repeat split.
Qed.

(** C9 as stated does not hold for two of the three properties.  Two
    configurations that share no value, and in which no value reads as 4500
    or as 100, both construct a controller with rated import power 4500 and
    idle losses 100; only the import ramp follows the configuration. *)
Lemma rated_power_and_idle_losses_not_configured :
  exists o1 s1 o2 s2,
    ElectricWaterHeater stoul_dec sample_configs true
      (sample_world 1 7 [reading_500] sample_NORMAL) blank
    = (o1, inr (tt, s1)) /\
    ElectricWaterHeater stoul_dec other_configs true
      (sample_world 1 7 [reading_500] sample_NORMAL) blank
    = (o2, inr (tt, s2)) /\
    rated_import_power_ (der s1) = 4500 /\ idle_losses_ (der s1) = 100 /\
    rated_import_power_ (der s2) = 4500 /\ idle_losses_ (der s2) = 100 /\
    import_ramp_ (der s1) = 30 /\ import_ramp_ (der s2) = 45 /\
    Forall (fun kv : string * string =>
              stoul_dec (snd kv) <> Some 4500 /\ stoul_dec (snd kv) <> Some 100)
           (sample_config_list ++ other_config_list).
Proof.
  eexists _, _, _, _.
  split; [vm_compute; reflexivity|].
  split; [vm_compute; reflexivity|].
  do 6 (split; [reflexivity|]).
  repeat constructor; vm_compute; discriminate.
Qed.

(** * The further properties at sample inputs *)

Lemma tick_periodic_commands_witness :
  exists out s',
    Loop sample_HEIGHTENED sample_GRID sample_CURTAILED
      (sample_world 0 10 [reading_500] sample_NORMAL) idle
    = (out, inr (tt, s')) /\
    In intermediateGetCommodity (commands out) /\
    In basicOutsideCommConnectionStatus_Found (commands out).
Proof.
  destruct (tick_periodic_commands sample_HEIGHTENED sample_GRID sample_CURTAILED
              (sample_world 0 10 [reading_500] sample_NORMAL) idle)
    as (out & s' & Hrun & Hq & _ & Hf); [discriminate|].
  exists out, s'. split; [exact Hrun|].
  split; [apply Hq; reflexivity | apply Hf; split; reflexivity].
Defined.

Lemma connection_status_every_due_tick_witness :
  exists out s',
    ticks sample_HEIGHTENED sample_GRID sample_CURTAILED
      [sample_world 0 10 [] sample_NORMAL; sample_world 0 10 [] sample_NORMAL;
       sample_world 1 10 [] sample_NORMAL]
      agreeing
    = (out, inr (tt, s')) /\
    sent is_connection_status out = 2%nat.
Proof.
  apply (connection_status_every_due_tick sample_HEIGHTENED sample_GRID sample_CURTAILED
           [sample_world 0 10 [] sample_NORMAL; sample_world 0 10 [] sample_NORMAL;
            sample_world 1 10 [] sample_NORMAL]
           agreeing).
  discriminate.
Defined.

Lemma same_minute_at_most_one_record_witness :
  exists out s',
    ticks sample_HEIGHTENED sample_GRID sample_CURTAILED
      [sample_world 0 10 [] sample_NORMAL; sample_world 30 10 [] sample_NORMAL;
       sample_world 0 10 [] sample_NORMAL]
      agreeing
    = (out, inr (tt, s')) /\
    (length (telemetry out) <= 1)%nat /\
    (log_minute_ agreeing = 10 -> telemetry out = []).
Proof.
  apply (same_minute_at_most_one_record sample_HEIGHTENED sample_GRID sample_CURTAILED
           [sample_world 0 10 [] sample_NORMAL; sample_world 30 10 [] sample_NORMAL;
            sample_world 0 10 [] sample_NORMAL]
           agreeing 10).
  - discriminate.
  - repeat constructor.
Defined.

Lemma no_record_off_second_zero_witness :
  exists out s',
    ticks sample_HEIGHTENED sample_GRID sample_CURTAILED
      [sample_world 59 10 [] sample_NORMAL; sample_world 1 11 [] sample_NORMAL;
       sample_world 2 12 [reading_500] sample_NORMAL]
      agreeing
    = (out, inr (tt, s')) /\
    telemetry out = [] /\
    log_minute_ s' = log_minute_ agreeing /\
    last_utc_ s' = last_utc_ agreeing.
Proof.
  apply (no_record_off_second_zero sample_HEIGHTENED sample_GRID sample_CURTAILED
           [sample_world 59 10 [] sample_NORMAL; sample_world 1 11 [] sample_NORMAL;
            sample_world 2 12 [reading_500] sample_NORMAL]
           agreeing).
  - discriminate.
  - repeat constructor; discriminate.
Defined.

Lemma telemetry_carries_fresh_reading_witness :
  exists out s' record,
    Loop sample_HEIGHTENED sample_GRID sample_CURTAILED
      (sample_world 0 10 [reading_500; mkCommodity 7 0 1234] sample_GRID) idle
    = (out, inr (tt, s')) /\
    telemetry out = [record] /\
    length record = 9%nat /\
    nth 3 record 0 = import_watts_ (der idle) /\
    nth 4 record 0 = 500 /\
    nth 8 record 0 = sample_GRID /\
    log_minute_ s' = 10 /\
    last_utc_ s' = 1700000000.
Proof.
  apply (telemetry_carries_fresh_reading sample_HEIGHTENED sample_GRID sample_CURTAILED
           (sample_world 0 10 [reading_500; mkCommodity 7 0 1234] sample_GRID) idle
           [] [mkCommodity 7 0 1234] reading_500).
  - discriminate.
  - reflexivity.
  - reflexivity.
  - reflexivity.
  - intros c' [<-|[]]. discriminate.
Defined.

Lemma fresh_reading_drives_shed_witness :
  exists out s',
    Loop sample_HEIGHTENED sample_GRID sample_CURTAILED
      (sample_world 2 7 [reading_500] sample_CURTAILED) idle
    = (out, inr (tt, s')) /\
    sent is_shed out = 1%nat /\
    sent is_load_up out = 0%nat /\
    import_commanded_watts s' = 500.
Proof.
  apply (fresh_reading_drives_shed sample_HEIGHTENED sample_GRID sample_CURTAILED
           (sample_world 2 7 [reading_500] sample_CURTAILED) idle [] [] reading_500).
  - discriminate.
  - discriminate.
  - reflexivity.
  - reflexivity.
  - reflexivity.
  - intros c' [].
  - reflexivity.
  - reflexivity.
Defined.

Lemma odd_second_tick_ignores_readings_witness :
  Loop sample_HEIGHTENED sample_GRID sample_CURTAILED
    (with_readings [reading_500] (sample_world 1 7 [] sample_NORMAL)) idle
  = Loop sample_HEIGHTENED sample_GRID sample_CURTAILED
      (sample_world 1 7 [] sample_NORMAL) idle.
Proof.
  apply (odd_second_tick_ignores_readings sample_HEIGHTENED sample_GRID sample_CURTAILED
           (sample_world 1 7 [] sample_NORMAL) idle [reading_500]).
  discriminate.
Defined.


Lemma calls_keep_settings_witness :
  exists out s',
    for_each [CallSetLoadUp; CallLoop (sample_world 0 10 [reading_500] sample_GRID);
              CallExportPower; CallLog (sample_world 5 10 [] sample_GRID)]
      (call sample_HEIGHTENED sample_GRID sample_CURTAILED) wanting_import
    = (out, inr (tt, s')) /\
    import_watts_ (der s') = 500 /\
    rated_import_power_ (der s') = 4500 /\
    heartbeat_ s' = 5.
Proof.
  eexists _, _.
  assert (Hrun : for_each
                   [CallSetLoadUp;
                    CallLoop (sample_world 0 10 [reading_500] sample_GRID);
                    CallExportPower; CallLog (sample_world 5 10 [] sample_GRID)]
                   (call sample_HEIGHTENED sample_GRID sample_CURTAILED) wanting_import
                 = (_, inr (tt, _))) by (vm_compute; reflexivity).
  split; [exact Hrun|].
  destruct (calls_keep_settings _ _ _ _ _ _ _ Hrun)
    as (H1 & _ & _ & H4 & _ & _ & _ & _ & _ & _ & H11).
  split; [exact H1|]. split; [exact H4 | exact H11].
Defined.

Lemma refresh_ignores_other_codes_witness :
  QueryProperties (sample_world 1 7 [mkCommodity 1 9 9; mkCommodity 5 8 8] sample_NORMAL)
    idle
  = ([Cmd intermediateGetCommodity; Cmd basicQueryOperationalState], inr (tt, idle)).
Proof.
  apply (proj2 (refresh_ignores_other_codes
                  (sample_world 1 7 [mkCommodity 1 9 9; mkCommodity 5 8 8] sample_NORMAL)
                  idle)).
  reflexivity.
Defined.

Lemma cumulative_of_last_reading_witness :
  exists out s',
    QueryProperties
      (sample_world 1 7 [mkCommodity 6 0 100; mkCommodity 6 0 4000; mkCommodity 7 0 1234]
         sample_NORMAL)
      idle
    = (out, inr (tt, s')) /\
    rated_import_energy_ (der s') = 4000.
Proof.
  destruct (cumulative_of_last_reading
              (sample_world 1 7
                 [mkCommodity 6 0 100; mkCommodity 6 0 4000; mkCommodity 7 0 1234]
                 sample_NORMAL)
              idle [mkCommodity 6 0 100] [mkCommodity 7 0 1234] (mkCommodity 6 0 4000))
    as (out & s' & Hrun & H6 & _).
  - reflexivity.
  - left. reflexivity.
  - intros c' [<-|[]]. discriminate.
  - exists out, s'. split; [exact Hrun | apply H6; reflexivity].
Defined.

Lemma construction_exits_iff_witness :
  exists out status,
    ElectricWaterHeater stoul_dec (delete "log_inc" sample_configs) false
      (sample_world 1 7 [] sample_NORMAL) blank
    = (out, inl (Exit status)).
Proof.
  apply (proj2 (proj1 (construction_exits_iff stoul_dec (delete "log_inc" sample_configs)
                         false (sample_world 1 7 [] sample_NORMAL) blank))).
  split; [reflexivity|]. split; vm_compute; discriminate.
Defined.

Lemma missing_numeric_setting_stops_construction_witness :
  exists out e,
    ElectricWaterHeater stoul_dec (delete "log_inc" sample_configs) true
      (sample_world 1 7 [] sample_NORMAL) blank
    = (out, inl e).
Proof.
  apply (missing_numeric_setting_stops_construction stoul_dec
           (delete "log_inc" sample_configs) true (sample_world 1 7 [] sample_NORMAL)
           blank "log_inc").
  - reflexivity.
  - right. right. left. reflexivity.
  - vm_compute. reflexivity.
Defined.

Lemma late_conversion_failure_follows_handshake_witness :
  exists out,
    ElectricWaterHeater stoul_dec (<["EWH_rated_import_ramp" := "fast"]> sample_configs)
      true (sample_world 1 7 [] sample_NORMAL) blank
    = (out, inl (Throw "stoul")) /\
    In (Logged "INFO" "/var/log/ewh" "startup complete") out.
Proof.
  destruct (late_conversion_failure_follows_handshake stoul_dec
              (<["EWH_rated_import_ramp" := "fast"]> sample_configs)
              (sample_world 1 7 [] sample_NORMAL) blank 1 5)
    as (out & Hrun & _ & Hlog).
  - vm_compute. reflexivity.
  - vm_compute. reflexivity.
  - right. vm_compute. reflexivity.
  - exists out. split; [exact Hrun|].
    assert (Hp : at_key (<["EWH_rated_import_ramp" := "fast"]> sample_configs) "log_path"
                 = "/var/log/ewh") by (vm_compute; reflexivity).
    rewrite <- Hp. apply Hlog. vm_compute. discriminate.
Defined.

Lemma zero_heartbeat_constructs_then_stops_witness :
  exists out s',
    ElectricWaterHeater stoul_dec (<["ucm_heartbeat" := "0"]> sample_configs) true
      (sample_world 1 7 [] sample_NORMAL) blank
    = (out, inr (tt, s')) /\
    forall w' : World,
      exists out',
        Loop sample_HEIGHTENED sample_GRID sample_CURTAILED w' s'
        = (out', inl (Undefined "min % heartbeat_")).
Proof.
  apply (zero_heartbeat_constructs_then_stops stoul_dec sample_HEIGHTENED sample_GRID
           sample_CURTAILED (<["ucm_heartbeat" := "0"]> sample_configs)
           (sample_world 1 7 [] sample_NORMAL) blank 1 60 30);
    vm_compute; reflexivity.
Defined.

